(** * pip-wrapper: the manifest reconciliation of [pip_wrapper/cli.py]

    A shallow embedding of [src/pip_wrapper/cli.py].  Python [str] values are
    Rocq strings (code points below 256), a [dict] is an association list in
    insertion order, the value returned by [toml.load] is a tree of [toml]
    values, and the code's effects (the file [pyproject.toml], the lines it
    prints, the exceptions it raises) are threaded through the monad [M]. *)

From Stdlib Require Import List String Ascii Bool ZArith Lia DecimalString.
Import ListNotations.
Open Scope string_scope.

(** ** Python string operations used by the code *)

Module Str.

(** [sep in s] *)
Fixpoint contains (sep s : string) : bool :=
  match s with
  | EmptyString => prefix sep EmptyString
  | String _ s' => prefix sep s || contains sep s'
  end.

(** [s.split(sep)] for a non-empty [sep]: the occurrences of [sep] are
    consumed from the left and do not overlap.  [skip] counts the characters
    of an occurrence already recognised. *)
Fixpoint split_from (sep : string) (skip : nat) (s : string) : list string :=
  match s with
  | EmptyString => [EmptyString]
  | String c s' =>
      match skip with
      | S n => split_from sep n s'
      | O =>
          if prefix sep s
          then EmptyString :: split_from sep (String.length sep - 1) s'
          else match split_from sep 0 s' with
               | [] => [String c EmptyString]
               | h :: t => String c h :: t
               end
      end
  end.

Definition split (sep s : string) : list string := split_from sep 0 s.

(** The line boundaries of [str.splitlines] among the code points below 256:
    LF, VT, FF, CR, FS, GS, RS and NEL. *)
Definition is_linebreak (c : ascii) : bool :=
  let n := nat_of_ascii c in
  Nat.eqb n 10 || Nat.eqb n 11 || Nat.eqb n 12 || Nat.eqb n 13
  || Nat.eqb n 28 || Nat.eqb n 29 || Nat.eqb n 30 || Nat.eqb n 133.

Definition is_cr (c : ascii) : bool := Nat.eqb (nat_of_ascii c) 13.
Definition is_lf (c : ascii) : bool := Nat.eqb (nat_of_ascii c) 10.

(** [s.splitlines()]: CR LF is one boundary, and a final boundary opens no
    further line. *)
Fixpoint splitlines_from (after_cr : bool) (s : string) : list string :=
  match s with
  | EmptyString => []
  | String c s' =>
      if after_cr && is_lf c then splitlines_from false s'
      else if is_linebreak c then EmptyString :: splitlines_from (is_cr c) s'
      else match splitlines_from false s' with
           | [] => [String c EmptyString]
           | l :: ls => String c l :: ls
           end
  end.

Definition splitlines (s : string) : list string := splitlines_from false s.

End Str.


(** ** Python dictionaries with string keys

    A [dict] keeps its items in insertion order; the order is what [toml.dump]
    writes and what [for ... in d.items()] visits. *)

Definition dict (V : Type) : Type := list (string * V).

Module Dict.
Section Ops.
Context {V : Type}.

Definition keys (d : dict V) : list string := map fst d.

(** [d.get(k)] *)
Fixpoint get (k : string) (d : dict V) : option V :=
  match d with
  | [] => None
  | (k', v) :: d' => if String.eqb k k' then Some v else get k d'
  end.

(** [k in d] *)
Definition mem (k : string) (d : dict V) : bool :=
  match get k d with Some _ => true | None => false end.

(** [d[k] = v]: an existing key keeps its place, a new key goes last. *)
Fixpoint set (k : string) (v : V) (d : dict V) : dict V :=
  match d with
  | [] => [(k, v)]
  | (k', v') :: d' =>
      if String.eqb k k' then (k', v) :: d' else (k', v') :: set k v d'
  end.

(** [d.pop(k)], the popped value dropped; [None] is Python's KeyError. *)
Fixpoint pop (k : string) (d : dict V) : option (dict V) :=
  match d with
  | [] => None
  | (k', v') :: d' =>
      if String.eqb k k' then Some d'
      else match pop k d' with
           | Some d'' => Some ((k', v') :: d'')
           | None => None
           end
  end.

(** [d.setdefault(k, v)]: the value now stored under [k], and the dict. *)
Definition setdefault (k : string) (v : V) (d : dict V) : V * dict V :=
  match get k d with
  | Some v' => (v', d)
  | None => (v, set k v d)
  end.

End Ops.
End Dict.

(** ** TOML documents, as [toml.load] returns them *)

#[local] Set Warnings "-register-all".
Inductive toml : Type :=
| TStr (s : string)
| TInt (z : Z)
| TFloat (lexeme : string)
| TBool (b : bool)
| TDatetime (iso : string)
| TArray (items : list toml)
| TTable (entries : list (string * toml)).

(** [value == version] for a [str] [version]: only an equal string is equal. *)
Definition toml_eq_str (value : toml) (version : string) : bool :=
  match value with
  | TStr s => String.eqb s version
  | _ => false
  end.

(** ** Exceptions, results and the effect monad *)

Inductive exn : Type :=
| OSError            (* the child process cannot be started *)
| FileNotFoundError
| PermissionError
| TomlDecodeError
| ValueError         (* tuple unpacking of the wrong length *)
| AttributeError     (* attribute missing on the object *)
| KeyError (key : string)
| SystemExit (code : Z).

Inductive result (A : Type) : Type :=
| Ok (a : A)
| Raise (e : exn).
Arguments Ok {A} a.
Arguments Raise {A} e.

(** What is stored at a path: a document [toml.load] accepts, or bytes it
    rejects.  [toml.dump] and [toml.load] are the library's primitives; a
    document that was dumped is the document a later load returns. *)
Inductive content : Type :=
| Document (d : dict toml)
| Malformed (raw : string).

Record file : Type := mkFile {
  body : content;
  readable : bool;
  writable : bool
}.

(** The state of the path PYPROJECT_FILE: [None] when no such file exists. *)
Definition filesystem : Type := option file.

(** One run of an effectful computation: how it ended, the file it left and
    the lines it printed. *)
Record run (A : Type) : Type := mkRun {
  outcome : result A;
  disk : filesystem;
  printed : list string
}.
Arguments mkRun {A} _ _ _.
Arguments outcome {A} _.
Arguments disk {A} _.
Arguments printed {A} _.

Definition M (A : Type) : Type := filesystem -> run A.

Definition ret {A} (a : A) : M A := fun fs => mkRun (Ok a) fs [].

Definition raise {A} (e : exn) : M A := fun fs => mkRun (Raise e) fs [].

Definition bind {A B} (m : M A) (k : A -> M B) : M B := fun fs =>
  let r := m fs in
  match outcome r with
  | Ok a =>
      let r' := k a (disk r) in
      mkRun (outcome r') (disk r') (printed r ++ printed r')
  | Raise e => mkRun (Raise e) (disk r) (printed r)
  end.

Definition lift {A} (r : result A) : M A :=
  match r with
  | Ok a => ret a
  | Raise e => raise e
  end.

Declare Scope py_scope.
Delimit Scope py_scope with py.
Notation "x <- m ;; k" := (bind m (fun x => k))
  (at level 61, m at next level, right associativity) : py_scope.
Notation "m ;; k" := (bind m (fun _ => k))
  (at level 61, right associativity) : py_scope.
Open Scope py_scope.

(** [print(msg)] *)
Definition print (msg : string) : M unit := fun fs => mkRun (Ok tt) fs [msg].

(** ** The module [pip_wrapper.cli] *)

(** [debug(message)] *)
Definition debug (message : string) : M unit := print ("[DEBUG] " ++ message).

(** [os.path.exists(PYPROJECT_FILE)] *)
Definition path_exists : M bool := fun fs =>
  mkRun (Ok (match fs with Some _ => true | None => false end)) fs [].

(** [with open(PYPROJECT_FILE, "r") as f: toml.load(f)] *)
Definition read_toml : M (dict toml) := fun fs =>
  match fs with
  | None => mkRun (Raise FileNotFoundError) fs []
  | Some f =>
      if readable f then
        match body f with
        | Document d => mkRun (Ok d) fs []
        | Malformed _ => mkRun (Raise TomlDecodeError) fs []
        end
      else mkRun (Raise PermissionError) fs []
  end.

(** [with open(PYPROJECT_FILE, "w") as f: toml.dump(project_data, f)]: a new
    file is created, an existing one is replaced whole when it may be
    written and left as it is otherwise. *)
Definition write_toml (project_data : dict toml) : M unit := fun fs =>
  match fs with
  | None => mkRun (Ok tt) (Some (mkFile (Document project_data) true true)) []
  | Some f =>
      if writable f
      then mkRun (Ok tt)
             (Some (mkFile (Document project_data) (readable f) true)) []
      else mkRun (Raise PermissionError) fs []
  end.

(** The attributes of the [sys] module that [is_virtual_env] reads;
    [hasattr] is [None] or [Some]. *)
Record sys_module : Type := mkSys {
  real_prefix : option string;
  base_prefix : option string;
  prefix : string
}.

Definition hasattr {A} (attribute : option A) : bool :=
  match attribute with Some _ => true | None => false end.

Definition getattr {A} (attribute : option A) : M A :=
  match attribute with
  | Some a => ret a
  | None => raise AttributeError
  end.

(** [is_virtual_env()] *)
Definition is_virtual_env (sys : sys_module) : M bool :=
  debug ("sys.prefix: " ++ prefix sys) ;;
  base <- getattr (base_prefix sys) ;;
  debug ("sys.base_prefix: " ++ base) ;;
  ret (hasattr (real_prefix sys)
       || (hasattr (base_prefix sys) && negb (String.eqb base (prefix sys)))).

(** The document [initialize_pyproject] writes. *)
Definition default_build_system : toml :=
  TTable [("requires", TArray [TStr "setuptools"; TStr "wheel"]);
          ("build-backend", TStr "setuptools.build_meta")].

Definition default_project_data : dict toml :=
  [("tool", TTable [("custom", TTable [("dependencies", TTable [])])]);
   ("build-system", default_build_system)].

(** [initialize_pyproject()] *)
Definition initialize_pyproject : M unit :=
  debug "Checking for pyproject.toml..." ;;
  present <- path_exists ;;
  if negb present then
    debug "Creating pyproject.toml..." ;;
    write_toml default_project_data ;;
    debug "Created pyproject.toml."
  else
    debug "pyproject.toml already exists.".

(** [value.setdefault(...)] is only defined when [value] is a dict. *)
Definition as_table (value : toml) : result (dict toml) :=
  match value with
  | TTable entries => Ok entries
  | _ => Raise AttributeError
  end.

(** The dicts reached by
    [project_data.setdefault("tool", {}).setdefault("custom", {})
       .setdefault("dependencies", {})].
    [dependencies] is an alias into [project_data]: each field is the dict
    object after its own [setdefault], and [project_data_of] reads the whole
    document back through the aliases. *)
Record deps_ref : Type := mkRef {
  root : dict toml;
  tool : dict toml;
  custom : dict toml;
  dependencies : dict toml
}.

Definition locate_dependencies (project_data : dict toml) : result deps_ref :=
  let (tool_value, root') :=
    Dict.setdefault "tool" (TTable []) project_data in
  match as_table tool_value with
  | Raise e => Raise e
  | Ok tool0 =>
      let (custom_value, tool') := Dict.setdefault "custom" (TTable []) tool0 in
      match as_table custom_value with
      | Raise e => Raise e
      | Ok custom0 =>
          let (deps_value, custom') :=
            Dict.setdefault "dependencies" (TTable []) custom0 in
          match as_table deps_value with
          | Raise e => Raise e
          | Ok deps0 => Ok (mkRef root' tool' custom' deps0)
          end
      end
  end.

Definition project_data_of (r : deps_ref) (deps : dict toml) : dict toml :=
  Dict.set "tool"
    (TTable (Dict.set "custom"
               (TTable (Dict.set "dependencies" (TTable deps) (custom r)))
               (tool r)))
    (root r).

(** The text an f-string shows for a value: a string as it is, an integer
    in decimal, a boolean by its name; for a float, a date, a list and a
    table only the name of the type is kept. *)
Definition format_value (value : toml) : string :=
  match value with
  | TStr s => s
  | TInt n => NilZero.string_of_int (Z.to_int n)
  | TFloat _ => "<float>"
  | TBool b => if b then "True" else "False"
  | TDatetime _ => "<datetime>"
  | TArray _ => "<list>"
  | TTable _ => "<dict>"
  end.

(** [update_pyproject(package, version)] *)
Definition update_pyproject (package version : string) : M unit :=
  initialize_pyproject ;;
  project_data <- read_toml ;;
  r <- lift (locate_dependencies project_data) ;;
  deps <-
    match Dict.get package (dependencies r) with
    | Some current =>
        if toml_eq_str current version then
          debug (package ++ "==" ++ version
                 ++ " is already listed in pyproject.toml.") ;;
          ret (dependencies r)
        else
          debug ("Updating " ++ package ++ " version from "
                 ++ format_value current ++ " to " ++ version ++ ".") ;;
          ret (Dict.set package (TStr version) (dependencies r))
    | None =>
        debug ("Adding " ++ package ++ "==" ++ version
               ++ " to pyproject.toml.") ;;
        ret (Dict.set package (TStr version) (dependencies r))
    end ;;
  write_toml (project_data_of r deps).

(** What [subprocess.run] hands back: the captured standard output, or the
    error raised when the interpreter cannot be started. *)
Inductive run_result : Type :=
| Completed (stdout : string)
| CannotStart.

(** The loop of [get_installed_packages] over the lines of the output. *)
Fixpoint freeze_lines (lines : list string) (packages : dict string)
  : result (dict string) :=
  match lines with
  | [] => Ok packages
  | line :: rest =>
      if Str.contains "==" line then
        match Str.split "==" line with
        | [name; version] => freeze_lines rest (Dict.set name version packages)
        | _ => Raise ValueError
        end
      else freeze_lines rest packages
  end.

(** [get_installed_packages()] *)
Definition get_installed_packages (pip : run_result) : M (dict string) :=
  match pip with
  | CannotStart => raise OSError
  | Completed stdout => lift (freeze_lines (Str.splitlines stdout) [])
  end.

(** The first loop of [reconcile_installed_packages]:
    [for package, version in current_packages.items()]. *)
Fixpoint add_or_update (items : list (string * string)) (deps : dict toml)
  : M (dict toml) :=
  match items with
  | [] => ret deps
  | (package, version) :: rest =>
      if negb (Dict.mem package deps)
         || match Dict.get package deps with
            | Some current => negb (toml_eq_str current version)
            | None => true
            end
      then
        debug ("Adding/Updating " ++ package ++ "==" ++ version
               ++ " in pyproject.toml.") ;;
        add_or_update rest (Dict.set package (TStr version) deps)
      else add_or_update rest deps
  end.

(** The second loop: [for pkg in to_remove: dependencies.pop(pkg)]. *)
Fixpoint remove_packages (to_remove : list string) (deps : dict toml)
  : M (dict toml) :=
  match to_remove with
  | [] => ret deps
  | pkg :: rest =>
      debug ("Removing " ++ pkg ++ " from pyproject.toml.") ;;
      match Dict.pop pkg deps with
      | Some deps' => remove_packages rest deps'
      | None => raise (KeyError pkg)
      end
  end.

(** [[pkg for pkg in dependencies if pkg not in current_packages]] *)
Definition uninstalled (current_packages : dict string) (deps : dict toml)
  : list string :=
  filter (fun pkg => negb (Dict.mem pkg current_packages)) (Dict.keys deps).

(** Lines 130-145: load the document and change it in memory. *)
Definition load_and_merge (current_packages : dict string)
  : M (dict toml) :=
  project_data <- read_toml ;;
  r <- lift (locate_dependencies project_data) ;;
  deps <- add_or_update current_packages (dependencies r) ;;
  deps' <- remove_packages (uninstalled current_packages deps) deps ;;
  ret (project_data_of r deps').

(** Lines 147-149: write the document back. *)
Definition save (project_data : dict toml) : M unit :=
  write_toml project_data ;;
  debug "Reconciliation complete.".

Definition reconciling : string := "Reconciling installed packages...".

(** [reconcile_installed_packages()]; [pip] is what [pip freeze] answers
    when this call asks. *)
Definition reconcile_installed_packages (pip : run_result) : M unit :=
  debug reconciling ;;
  initialize_pyproject ;;
  current_packages <- get_installed_packages pip ;;
  project_data <- load_and_merge current_packages ;;
  save project_data.

(** A watchdog event; the handler reads none of its fields. *)
Inductive event_type : Type := Created | Deleted | Modified | Moved.

Record fs_event : Type := mkEvent {
  kind : event_type;
  src_path : string;
  arrival : nat        (* time of delivery, in milliseconds *)
}.

(** [InstallEventHandler.on_any_event(event)] *)
Definition on_any_event (event : fs_event) (pip : run_result) : M unit :=
  debug "Filesystem change detected. Triggering reconciliation..." ;;
  reconcile_installed_packages pip.

(** The observer thread hands every queued event to the handler, one call
    per event; an exception of the handler leaves the loop. *)
Fixpoint dispatch_events (queue : list (fs_event * run_result)) : M unit :=
  match queue with
  | [] => ret tt
  | (event, pip) :: rest => on_any_event event pip ;; dispatch_events rest
  end.

(** [periodic_reconcile()], the body of the timer thread:
    [while True: time.sleep(10); reconcile_installed_packages()].
    [ticks] lists what [pip freeze] answers at the successive wake-ups; the
    result [Ok] means the loop is still running after them. *)
Fixpoint periodic_reconcile (ticks : list run_result) : M unit :=
  match ticks with
  | [] => ret tt
  | pip :: rest => reconcile_installed_packages pip ;; periodic_reconcile rest
  end.

(** How many reconciliations a run started: each one prints its first line. *)
Definition reconciliations (lines : list string) : nat :=
  count_occ string_dec lines ("[DEBUG] " ++ reconciling).

(** [project_data.get("tool", {}).get("custom", {}).get("dependencies", {})],
    the read of [install_dependencies_from_pyproject]. *)
Definition get_table (k : string) (d : dict toml) : result (dict toml) :=
  match Dict.get k d with
  | Some value => as_table value
  | None => Ok []
  end.

Definition listed_dependencies (project_data : dict toml)
  : result (dict toml) :=
  match get_table "tool" project_data with
  | Raise e => Raise e
  | Ok tool0 =>
      match get_table "custom" tool0 with
      | Raise e => Raise e
      | Ok custom0 => get_table "dependencies" custom0
      end
  end.

(** The document stored in the manifest file, when it holds one. *)
Definition persisted (fs : filesystem) : option (dict toml) :=
  match fs with
  | Some f => match body f with Document d => Some d | Malformed _ => None end
  | None => None
  end.

(** ** The two threads of [monitor_virtualenv]

    The observer thread runs [on_any_event] and the timer thread runs
    [periodic_reconcile]; both call [reconcile_installed_packages] with no
    lock.  A thread is between two of the calls that touch the outside world,
    and the scheduler lets either thread make its next call. *)

Inductive thread_id : Type := Watcher | Timer.

(** Where a thread stands inside [reconcile_installed_packages]. *)
Inductive pc : Type :=
| Waiting                                 (* blocked until the next trigger *)
| AtInit                                  (* before initialize_pyproject() *)
| AtProbe                                 (* before get_installed_packages() *)
| AtLoad (current_packages : dict string) (* before open(..., "r") *)
| AtSave (project_data : dict toml)       (* before open(..., "w") *)
| Dead (e : exn).                         (* ended by an uncaught exception *)

(** The next call of a thread. *)
Definition stage (t : thread_id) (pip : run_result) (p : pc) : M pc :=
  match p with
  | Waiting =>
      match t with
      | Watcher =>
          debug "Filesystem change detected. Triggering reconciliation..."
      | Timer => ret tt
      end ;;
      debug reconciling ;;
      ret AtInit
  | AtInit => initialize_pyproject ;; ret AtProbe
  | AtProbe =>
      current_packages <- get_installed_packages pip ;;
      ret (AtLoad current_packages)
  | AtLoad current_packages =>
      project_data <- load_and_merge current_packages ;;
      ret (AtSave project_data)
  | AtSave project_data => save project_data ;; ret Waiting
  | Dead e => ret (Dead e)
  end.

(** Neither thread body catches anything: an exception ends the thread. *)
Definition thread_step (t : thread_id) (pip : run_result) (p : pc) : M pc :=
  fun fs =>
    let r := stage t pip p fs in
    match outcome r with
    | Ok p' => r
    | Raise e => mkRun (Ok (Dead e)) (disk r) (printed r)
    end.

Record threads : Type := mkThreads {
  watcher : pc;
  timer : pc
}.

(** A schedule names the thread that moves and what [pip freeze] would
    answer at that moment. *)
Definition schedule : Type := list (thread_id * run_result).

Fixpoint run_threads (sched : schedule) (ts : threads) : M threads :=
  match sched with
  | [] => ret ts
  | (Watcher, pip) :: rest =>
      p <- thread_step Watcher pip (watcher ts) ;;
      run_threads rest (mkThreads p (timer ts))
  | (Timer, pip) :: rest =>
      p <- thread_step Timer pip (timer ts) ;;
      run_threads rest (mkThreads (watcher ts) p)
  end.

(** A thread is inside a reconciliation. *)
Definition in_flight (p : pc) : bool :=
  match p with
  | AtInit | AtProbe | AtLoad _ | AtSave _ => true
  | Waiting | Dead _ => false
  end.


(** [monitor_virtualenv()]: the check, then the observer and the timer
    thread running under [sched]. *)
Definition monitor_virtualenv (sys : sys_module) (site_packages_dir : string)
    (sched : schedule) : M threads :=
  inside <- is_virtual_env sys ;;
  if negb inside then
    print "Error: This script must be run inside a virtual environment." ;;
    raise (SystemExit 1)
  else
    debug ("Monitoring " ++ site_packages_dir ++ " for changes...") ;;
    run_threads sched (mkThreads Waiting Waiting).

(** ** Inputs of the examples *)

(** The line feed. *)
Definition lf : string := String (ascii_of_nat 10) EmptyString.

(** A writable manifest file whose only dependencies are [deps]. *)
Definition manifest_with (deps : dict toml) : filesystem :=
  Some (mkFile
          (Document [("tool", TTable [("custom",
                                 TTable [("dependencies", TTable deps)])]);
                     ("build-system", default_build_system)])
          true true).

(** ** Pure descriptions used in the statements *)

(** The dependency table after both loops of a reconciliation against the
    installed set [current_packages]. *)
Definition assign (deps : dict toml) (item : string * string) : dict toml :=
  Dict.set (fst item) (TStr (snd item)) deps.

Definition reconciled (current_packages : dict string) (deps : dict toml)
  : dict toml :=
  filter (fun entry => Dict.mem (fst entry) current_packages)
         (fold_left assign current_packages deps).

(** A run without the lines it printed. *)
Definition effect {A} (r : run A) : result A * filesystem :=
  (outcome r, disk r).

(** A computation that returns [a] and leaves the file alone. *)
Definition returns {A} (m : M A) (fs : filesystem) (a : A) : Prop :=
  effect (m fs) = (Ok a, fs).

(** The file [initialize_pyproject] leaves. *)
Definition default_file : file :=
  mkFile (Document default_project_data) true true.

Definition initialized (fs : filesystem) : filesystem :=
  match fs with
  | Some f => Some f
  | None => Some default_file
  end.

(** What the prober returns, without the monad. *)
Definition probe (pip : run_result) : result (dict string) :=
  match pip with
  | CannotStart => Raise OSError
  | Completed stdout => freeze_lines (Str.splitlines stdout) []
  end.

(** The document [load_and_merge] builds from the loaded document [d]. *)
Definition merged_document (current_packages : dict string) (d : dict toml)
  : result (dict toml) :=
  match locate_dependencies d with
  | Raise e => Raise e
  | Ok r =>
      Ok (project_data_of r (reconciled current_packages (dependencies r)))
  end.

(** The outcome of a reconciliation and the file it leaves. *)
Definition reconcile_effect (pip : run_result) (fs : filesystem)
  : result unit * filesystem :=
  let fs0 := initialized fs in
  match probe pip with
  | Raise e => (Raise e, fs0)
  | Ok current_packages =>
      match outcome (read_toml fs0) with
      | Raise e => (Raise e, fs0)
      | Ok d =>
          match merged_document current_packages d with
          | Raise e => (Raise e, fs0)
          | Ok project_data => effect (write_toml project_data fs0)
          end
      end
  end.

(** A computation none of whose lines announces a reconciliation. *)
Definition silent {A} (m : M A) : Prop :=
  forall fs, reconciliations (printed (m fs)) = 0.

(** An interpreter of a virtualenv whose [sys] carries [real_prefix] and
    equal [base_prefix] and [prefix]. *)
Definition legacy_virtualenv : sys_module :=
  mkSys (Some "/usr") (Some "/home/u/venv") "/home/u/venv".

(** The threads without the monad: where a step of a thread leads and the
    file it leaves. *)
Definition or_dead {A} (r : result A) (next : A -> pc) : pc :=
  match r with
  | Ok a => next a
  | Raise e => Dead e
  end.

Definition next (pip : run_result) (p : pc) (fs : filesystem)
  : pc * filesystem :=
  match p with
  | Waiting => (AtInit, fs)
  | AtInit => (AtProbe, initialized fs)
  | AtProbe => (or_dead (probe pip) AtLoad, fs)
  | AtLoad current_packages =>
      (or_dead (match outcome (read_toml fs) with
                | Raise e => Raise e
                | Ok d => merged_document current_packages d
                end) AtSave, fs)
  | AtSave project_data =>
      (or_dead (outcome (write_toml project_data fs)) (fun _ => Waiting),
       disk (write_toml project_data fs))
  | Dead e => (Dead e, fs)
  end.


Definition other (t : thread_id) : thread_id :=
  match t with
  | Watcher => Timer
  | Timer => Watcher
  end.




Definition after_install : run_result :=
  Completed ("flask==2.0.0" ++ lf ++ "six==1.16.0" ++ lf).


(** ** The rest of [pip_wrapper/cli.py] *)

Module Text.

(** The characters [str.strip()] removes, among the code points below 256. *)
Definition is_space (c : ascii) : bool :=
  let n := nat_of_ascii c in
  (Nat.leb 9 n && Nat.leb n 13) || (Nat.leb 28 n && Nat.leb n 32)
  || Nat.eqb n 133 || Nat.eqb n 160.

(** [s.lstrip()] *)
Fixpoint lstrip (s : string) : string :=
  match s with
  | EmptyString => EmptyString
  | String c s' => if is_space c then lstrip s' else s
  end.

(** [s.rstrip()] *)
Fixpoint rstrip (s : string) : string :=
  match s with
  | EmptyString => EmptyString
  | String c s' =>
      match rstrip s' with
      | EmptyString => if is_space c then EmptyString else String c EmptyString
      | r => String c r
      end
  end.

(** [s.strip()] *)
Definition strip (s : string) : string := rstrip (lstrip s).

(** [sep.join(parts)] *)
Fixpoint join (sep : string) (parts : list string) : string :=
  match parts with
  | [] => EmptyString
  | [part] => part
  | part :: rest => part ++ sep ++ join sep rest
  end.

(** [s] is empty or begins with a character [strip] keeps. *)
Definition starts_clean (s : string) : bool :=
  match s with
  | EmptyString => true
  | String c _ => negb (is_space c)
  end.

(** [s[n:]] *)
Fixpoint drop (n : nat) (s : string) : string :=
  match n, s with
  | O, _ => s
  | S n', String _ s' => drop n' s'
  | S _, EmptyString => EmptyString
  end.

End Text.

(** [bool(value)], the test of [if value]: empty strings and containers, zero
    and [False] are false.  For a float only the digits of its lexeme before
    the exponent are looked at. *)
Definition is_zero_digit (c : ascii) : bool :=
  Nat.eqb (nat_of_ascii c) 48.

Definition is_digit (c : ascii) : bool :=
  let n := nat_of_ascii c in Nat.leb 48 n && Nat.leb n 57.

Definition is_exponent (c : ascii) : bool :=
  let n := nat_of_ascii c in Nat.eqb n 69 || Nat.eqb n 101.

Fixpoint mantissa_is_zero (lexeme : string) : bool :=
  match lexeme with
  | EmptyString => true
  | String c rest =>
      if is_exponent c then true
      else if is_digit c then is_zero_digit c && mantissa_is_zero rest
      else mantissa_is_zero rest
  end.

Fixpoint has_digit (lexeme : string) : bool :=
  match lexeme with
  | EmptyString => false
  | String c rest => is_digit c || has_digit rest
  end.

Definition truthy (value : toml) : bool :=
  match value with
  | TStr s => negb (String.eqb s EmptyString)
  | TInt z => negb (Z.eqb z 0)
  | TFloat lexeme => negb (has_digit lexeme && mantissa_is_zero lexeme)
  | TBool b => b
  | TDatetime _ => true
  | TArray items => match items with [] => false | _ :: _ => true end
  | TTable entries => match entries with [] => false | _ :: _ => true end
  end.

(** [value.get(k, {})]: defined on a dict only. *)
Definition get_or_empty (k : string) (value : toml) : result toml :=
  match as_table value with
  | Raise e => Raise e
  | Ok d =>
      Ok (match Dict.get k d with Some v => v | None => TTable [] end)
  end.

(** [f"{package}=={version}" if version else package] *)
Definition pkg_str (package : string) (version : toml) : string :=
  if truthy version then package ++ "==" ++ format_value version
  else package.

(** The argument vector of one [subprocess.run]. *)
Definition command : Type := list string.

Definition pip_install (executable requirement : string) : command :=
  [executable; "-m"; "pip"; "install"; requirement].

(** [subprocess.run(command)] where the code drops what it returns: the
    exit status and the output of the process are not looked at, but the
    call raises when the process cannot be started.  [spawn] says how the
    system answers each command. *)
Definition subprocess_run (spawn : command -> run_result) (c : command)
  : M unit :=
  match spawn c with
  | Completed _ => ret tt
  | CannotStart => raise OSError
  end.

(** The loop of [install_dependencies_from_pyproject]; the commands it runs
    are returned in the order of the calls.  A command that cannot be
    started ends the loop with the exception of [subprocess.run]. *)
Fixpoint install_each (executable : string) (spawn : command -> run_result)
    (items : dict toml) : M (list command) :=
  match items with
  | [] => ret []
  | (package, version) :: rest =>
      print ("Installing " ++ pkg_str package version ++ "...") ;;
      subprocess_run spawn
        (pip_install executable (pkg_str package version)) ;;
      commands <- install_each executable spawn rest ;;
      ret (pip_install executable (pkg_str package version) :: commands)
  end.

(** [install_dependencies_from_pyproject()]; [executable] is
    [sys.executable]. *)
Definition install_dependencies_from_pyproject (executable : string)
    (spawn : command -> run_result) : M (list command) :=
  present <- path_exists ;;
  if negb present then
    print ("Error: pyproject.toml does not exist. "
           ++ "Cannot install dependencies.") ;;
    ret []
  else
    project_data <- read_toml ;;
    tool_value <- lift (get_or_empty "tool" (TTable project_data)) ;;
    custom_value <- lift (get_or_empty "custom" tool_value) ;;
    deps_value <- lift (get_or_empty "dependencies" custom_value) ;;
    if negb (truthy deps_value) then
      print "No dependencies listed in pyproject.toml." ;;
      ret []
    else
      print "Installing dependencies from pyproject.toml..." ;;
      items <- lift (as_table deps_value) ;;
      commands <- install_each executable spawn items ;;
      print "Dependencies installation complete." ;;
      ret commands.

(** What [main] ended up doing. *)
Inductive activity : Type :=
| Monitored (ts : threads)
| Installed (commands : list command)
| Nothing.

(** [main()]; [typed] is the line [input] returns. *)
Definition main (sys : sys_module) (site_packages_dir executable : string)
    (spawn : command -> run_result) (sched : schedule) (typed : string)
  : M activity :=
  inside <- is_virtual_env sys ;;
  if negb inside then
    print "Error: This script must be run inside a virtual environment." ;;
    raise (SystemExit 1)
  else
    print "1. Monitor environment for changes" ;;
    print "2. Install dependencies from pyproject.toml" ;;
    print "Select an option (1 or 2): " ;;
    let choice := Text.strip typed in
    if String.eqb choice "1" then
      debug "Starting the monitoring process..." ;;
      ts <- monitor_virtualenv sys site_packages_dir sched ;;
      ret (Monitored ts)
    else if String.eqb choice "2" then
      commands <- install_dependencies_from_pyproject executable spawn ;;
      ret (Installed commands)
    else
      print "Invalid choice. Exiting." ;;
      ret Nothing.

(** The command of one entry of the dependency table. *)
Definition install_command (executable : string) (entry : string * toml)
  : command :=
  pip_install executable (pkg_str (fst entry) (snd entry)).

(** The commands of a loop that starts them one after the other: all of
    them, or the exception of the first that cannot be started. *)
Fixpoint spawn_all (spawn : command -> run_result) (commands : list command)
  : result (list command) :=
  match commands with
  | [] => Ok []
  | c :: rest =>
      match spawn c with
      | CannotStart => Raise OSError
      | Completed _ =>
          match spawn_all spawn rest with
          | Raise e => Raise e
          | Ok started => Ok (c :: started)
          end
      end
  end.

(** Every command can be started. *)
Definition starts_all (spawn : command -> run_result)
    (commands : list command) : Prop :=
  forall c, In c commands -> spawn c <> CannotStart.

(** What [install_dependencies_from_pyproject] returns, without the monad. *)
Definition install_commands (executable : string)
    (spawn : command -> run_result) (fs : filesystem)
  : result (list command) :=
  match fs with
  | None => Ok []
  | Some _ =>
      match outcome (read_toml fs) with
      | Raise e => Raise e
      | Ok d =>
          match get_or_empty "tool" (TTable d) with
          | Raise e => Raise e
          | Ok tool_value =>
              match get_or_empty "custom" tool_value with
              | Raise e => Raise e
              | Ok custom_value =>
                  match get_or_empty "dependencies" custom_value with
                  | Raise e => Raise e
                  | Ok deps_value =>
                      if negb (truthy deps_value) then Ok []
                      else
                        match as_table deps_value with
                        | Raise e => Raise e
                        | Ok items =>
                            spawn_all spawn
                              (map (install_command executable) items)
                        end
                  end
              end
          end
      end
  end.

(** ** The installed copy, [.env/Lib/site-packages/pip_wrapper/cli.py] *)

Module Installed.

(** [initialize_pyproject()]: the file of the other copy, other lines. *)
Definition initialize_pyproject : M unit :=
  present <- path_exists ;;
  if negb present then
    print "Initializing pyproject.toml..." ;;
    write_toml default_project_data ;;
    print "Created pyproject.toml."
  else
    print "pyproject.toml already exists.".

(** [update_pyproject(package, version)] *)
Definition update_pyproject (package version : string) : M unit :=
  present <- path_exists ;;
  (if negb present then initialize_pyproject else ret tt) ;;
  project_data <- read_toml ;;
  r <- lift (locate_dependencies project_data) ;;
  write_toml
    (project_data_of r
       (Dict.set package (TStr version) (dependencies r))) ;;
  print ("Updated pyproject.toml: " ++ package ++ "==" ++ version).

(** How [get_installed_version] ends: with a version, with [None], or with
    an exception. *)
Inductive version_lookup : Type :=
| Version (v : string)
| NoVersion
| IndexError
| CannotRun.

(** The loop of [get_installed_version] over the lines of [pip show]. *)
Fixpoint version_line (lines : list string) : version_lookup :=
  match lines with
  | [] => NoVersion
  | line :: rest =>
      if String.prefix "Version:" line then
        match nth_error (Str.split ":" line) 1 with
        | Some field => Version (Text.strip field)
        | None => IndexError
        end
      else version_line rest
  end.

(** [get_installed_version(package)]; [show] is what [pip show package]
    answers. *)
Definition get_installed_version (show : run_result) : version_lookup :=
  match show with
  | CannotStart => CannotRun
  | Completed stdout => version_line (Str.splitlines stdout)
  end.

(** The loop of [install_dependencies_from_pyproject]; as in the other
    copy, a command that cannot be started ends it. *)
Fixpoint install_each (executable : string) (spawn : command -> run_result)
    (items : dict toml) : M (list command) :=
  match items with
  | [] => ret []
  | (package, version) :: rest =>
      print ("Installing " ++ pkg_str package version ++ "...") ;;
      subprocess_run spawn
        (pip_install executable (pkg_str package version)) ;;
      commands <- install_each executable spawn rest ;;
      ret (pip_install executable (pkg_str package version) :: commands)
  end.

(** [install_dependencies_from_pyproject()] *)
Definition install_dependencies_from_pyproject (executable : string)
    (spawn : command -> run_result) : M (list command) :=
  present <- path_exists ;;
  if negb present then
    print "Error: pyproject.toml not found." ;;
    raise (SystemExit 1)
  else
    project_data <- read_toml ;;
    tool_value <- lift (get_or_empty "tool" (TTable project_data)) ;;
    custom_value <- lift (get_or_empty "custom" tool_value) ;;
    deps_value <- lift (get_or_empty "dependencies" custom_value) ;;
    if negb (truthy deps_value) then
      print "No dependencies found in pyproject.toml." ;;
      ret []
    else
      print "Installing dependencies from pyproject.toml..." ;;
      items <- lift (as_table deps_value) ;;
      install_each executable spawn items.

End Installed.

(** ** The installation log of [pip_wrapper/cli.py]

    [load_log], [save_log] and [track_installations] work on the file
    LOG_FILE, a JSON document; their state is that file alone. *)

Module Log.

(** What [json.load] returns. *)
Inductive json : Type :=
| JNull
| JBool (b : bool)
| JNumber (lexeme : string)
| JString (s : string)
| JArray (items : list json)
| JObject (members : list (string * json)).

Inductive error : Type :=
| JSONDecodeError
| FileNotFoundError
| PermissionError
| KeyError (key : string)
| TypeError          (* subscript of a value that is not a dict *)
| AttributeError.    (* [append] on a value that is not a list *)

Inductive outcome_of (A : Type) : Type :=
| Returned (a : A)
| Raised (e : error).
Arguments Returned {A} a.
Arguments Raised {A} e.

(** The content of LOG_FILE: a value [json.load] accepts, or bytes it
    rejects; what [json.dump] wrote is what a later load returns. *)
Inductive content : Type :=
| Data (value : json)
| Garbage (raw : string).

Record file : Type := mkFile {
  body : content;
  readable : bool;
  writable : bool
}.

(** The state of the path LOG_FILE: [None] when no such file exists. *)
Definition filesystem : Type := option file.

Record run (A : Type) : Type := mkRun {
  outcome : outcome_of A;
  disk : filesystem;
  printed : list string
}.
Arguments mkRun {A} _ _ _.
Arguments outcome {A} _.
Arguments disk {A} _.
Arguments printed {A} _.

Definition L (A : Type) : Type := filesystem -> run A.

Definition ret {A} (a : A) : L A := fun fs => mkRun (Returned a) fs [].

Definition raise {A} (e : error) : L A := fun fs => mkRun (Raised e) fs [].

Definition bind {A B} (m : L A) (k : A -> L B) : L B := fun fs =>
  let r := m fs in
  match outcome r with
  | Returned a =>
      let r' := k a (disk r) in
      mkRun (outcome r') (disk r') (printed r ++ printed r')
  | Raised e => mkRun (Raised e) (disk r) (printed r)
  end.

(** [debug(message)] *)
Definition debug (message : string) : L unit := fun fs =>
  mkRun (Returned tt) fs ["[DEBUG] " ++ message].

(** [with open(LOG_FILE, "r") as f: return json.load(f)] *)
Definition read_json : L json := fun fs =>
  match fs with
  | None => mkRun (Raised FileNotFoundError) fs []
  | Some f =>
      if readable f then
        match body f with
        | Data value => mkRun (Returned value) fs []
        | Garbage _ => mkRun (Raised JSONDecodeError) fs []
        end
      else mkRun (Raised PermissionError) fs []
  end.

(** [load_log()] *)
Definition load_log : L json :=
  bind (debug "Loading log file...") (fun _ fs =>
    match fs with
    | Some _ =>
        bind (debug "Log file found: installed_packages.json")
             (fun _ => read_json) fs
    | None =>
        bind (debug "No log file found. Initializing new log.")
             (fun _ => ret (JObject [("installations", JArray [])])) fs
    end).

(** [save_log(log_data)] *)
Definition save_log (log_data : json) : L unit :=
  bind (debug "Saving log data to installed_packages.json...") (fun _ fs =>
    match fs with
    | None => mkRun (Returned tt) (Some (mkFile (Data log_data) true true)) []
    | Some f =>
        if writable f
        then mkRun (Returned tt)
               (Some (mkFile (Data log_data) (readable f) true)) []
        else mkRun (Raised PermissionError) fs []
    end).

(** [value[key]] for a string [key] *)
Definition subscript (value : json) (key : string) : outcome_of json :=
  match value with
  | JObject members =>
      match Dict.get key members with
      | Some v => Returned v
      | None => Raised (KeyError key)
      end
  | _ => Raised TypeError
  end.

(** The list [value.append] works on. *)
Definition as_list (value : json) : outcome_of (list json) :=
  match value with
  | JArray items => Returned items
  | _ => Raised AttributeError
  end.

Definition lift {A} (o : outcome_of A) : L A :=
  match o with
  | Returned a => ret a
  | Raised e => raise e
  end.

(** The entry [track_installations] builds; [now] is
    [datetime.now().isoformat()]. *)
Definition log_entry (package_name package_version now : string) : json :=
  JObject [("package", JString package_name);
           ("version", JString package_version);
           ("timestamp", JString now)].

(** [log_data] after [log_data["installations"].append(entry)]: the list is
    an alias into [log_data]. *)
Definition appended (log_data : json) (items : list json) (entry : json)
  : json :=
  match log_data with
  | JObject members =>
      JObject (Dict.set "installations" (JArray (items ++ [entry])) members)
  | other => other
  end.

(** [track_installations(package_name, package_version)] *)
Definition track_installations (package_name package_version now : string)
  : L unit :=
  bind load_log (fun log_data =>
  bind (lift (subscript log_data "installations")) (fun installations =>
  bind (lift (as_list installations)) (fun items =>
  save_log
    (appended log_data items
       (log_entry package_name package_version now))))).


(** The entries of a log file that holds a well-formed log. *)
Definition installations (fs : filesystem) : option (list json) :=
  match fs with
  | Some f =>
      match body f with
      | Data (JObject members) =>
          match Dict.get "installations" members with
          | Some (JArray items) => Some items
          | _ => None
          end
      | _ => None
      end
  | None => None
  end.

End Log.

(** ** Words of the specification

    What follows is written from the words of the specification, not from
    the code, to be compared with what the code does. *)

(** The characters of a package name: letters, digits, ".", "_" and "-". *)
Definition is_name_char (c : ascii) : bool :=
  let n := nat_of_ascii c in
  (Nat.leb 65 n && Nat.leb n 90) || (Nat.leb 97 n && Nat.leb n 122)
  || (Nat.leb 48 n && Nat.leb n 57)
  || Nat.eqb n 45 || Nat.eqb n 46 || Nat.eqb n 95.

(** The characters of a version: no white space and no "=". *)
Definition is_version_char (c : ascii) : bool :=
  negb (Text.is_space c) && negb (Nat.eqb (nat_of_ascii c) 61).

Fixpoint all_chars (p : ascii -> bool) (s : string) : bool :=
  match s with
  | EmptyString => true
  | String c rest => p c && all_chars p rest
  end.

(** A line that matches the pattern "name==version" of the specification:
    a package name, the separator once, and a version. *)
Definition matches_name_version (line : string) : bool :=
  match Str.split "==" line with
  | [name; version] =>
      negb (String.eqb name "") && all_chars is_name_char name
      && negb (String.eqb version "") && all_chars is_version_char version
  | _ => false
  end.




(** ** Scenarios of the specification *)

Example scenario_install :
  disk (reconcile_installed_packages (Completed ("requests==2.31.0" ++ lf))
          (manifest_with []))
  = manifest_with [("requests", TStr "2.31.0")].
Proof. reflexivity. Qed.

Example scenario_uninstall :
  disk (reconcile_installed_packages (Completed "")
          (manifest_with [("flask", TStr "2.0.0")]))
  = manifest_with [].
Proof. reflexivity. Qed.

Example scenario_upgrade :
  disk (reconcile_installed_packages (Completed ("flask==2.3.3" ++ lf))
          (manifest_with [("flask", TStr "2.0.0")]))
  = manifest_with [("flask", TStr "2.3.3")].
Proof. reflexivity. Qed.

Example scenario_first_run :
  disk (reconcile_installed_packages
          (Completed ("flask==2.3.3" ++ lf ++ "-e git+https://x/y#egg=y" ++ lf
                      ++ "requests==2.31.0" ++ lf))
          None)
  = manifest_with [("flask", TStr "2.3.3"); ("requests", TStr "2.31.0")].
Proof. reflexivity. Qed.

(** ** Facts about dictionaries *)

Section DictFacts.
Context {V : Type}.
Implicit Types (d : dict V) (k : string) (v : V).

Lemma get_set_same k v d : Dict.get k (Dict.set k v d) = Some v.
Proof.
  induction d as [|[k' v'] d IH]; simpl.
  - now rewrite String.eqb_refl.
  - destruct (String.eqb k k') eqn:E; simpl; rewrite E; auto.
Qed.

Lemma get_set_other k k' v d :
  k <> k' -> Dict.get k' (Dict.set k v d) = Dict.get k' d.
Proof.
  intros Hne. induction d as [|[k0 v0] d IH]; simpl.
  - destruct (String.eqb_spec k' k); congruence.
  - destruct (String.eqb_spec k k0); simpl.
    + subst. destruct (String.eqb_spec k' k0); congruence.
    + now rewrite IH.
Qed.

Lemma set_get_id k v d : Dict.get k d = Some v -> Dict.set k v d = d.
Proof.
  induction d as [|[k0 v0] d IH]; simpl; [discriminate|].
  destruct (String.eqb k k0); intros H.
  - congruence.
  - now rewrite IH.
Qed.


Lemma mem_get k d : Dict.mem k d = true <-> Dict.get k d <> None.
Proof.
  unfold Dict.mem. destruct (Dict.get k d); split; congruence.
Qed.

Lemma get_in_keys k d : Dict.get k d <> None <-> In k (Dict.keys d).
Proof.
  induction d as [|[k0 v0] d IH]; simpl.
  - split; [congruence | tauto].
  - destruct (String.eqb_spec k k0).
    + subst. split; [auto | congruence].
    + rewrite IH. split; [auto | intros [H|H]; congruence].
Qed.

Lemma keys_set k v d :
  forall x, In x (Dict.keys (Dict.set k v d)) <-> x = k \/ In x (Dict.keys d).
Proof.
  intros x. induction d as [|[k0 v0] d IH]; simpl.
  - intuition congruence.
  - destruct (String.eqb_spec k k0); simpl.
    + subst. intuition congruence.
    + rewrite IH. intuition congruence.
Qed.

Lemma nodup_keys_set k v d :
  NoDup (Dict.keys d) -> NoDup (Dict.keys (Dict.set k v d)).
Proof.
  induction d as [|[k0 v0] d IH]; simpl; intros H.
  - constructor; [simpl; tauto | constructor].
  - inversion H as [|? ? Hnin Hnd]; subst.
    destruct (String.eqb_spec k k0); simpl.
    + now constructor.
    + constructor; [|now apply IH].
      rewrite keys_set. intros [E|E]; congruence.
Qed.

Lemma get_filter (p : string -> bool) k d :
  Dict.get k (filter (fun entry => p (fst entry)) d)
  = if p k then Dict.get k d else None.
Proof.
  induction d as [|[k0 v0] d IH]; simpl.
  - now destruct (p k).
  - destruct (p k0) eqn:Ep; simpl.
    + destruct (String.eqb_spec k k0); [subst; now rewrite Ep | exact IH].
    + destruct (String.eqb_spec k k0); [subst; now rewrite IH, Ep | exact IH].
Qed.


End DictFacts.

(** ** Facts about the monad *)

Lemma bind_ok {A B} (m : M A) (k : A -> M B) fs a fs' :
  effect (m fs) = (Ok a, fs') -> effect (bind m k fs) = effect (k a fs').
Proof.
  unfold effect, bind. intros H. inversion H as [[Ho Hd]].
  rewrite Ho. reflexivity.
Qed.

Lemma bind_raise {A B} (m : M A) (k : A -> M B) fs e fs' :
  effect (m fs) = (Raise e, fs') -> effect (bind m k fs) = (Raise e, fs').
Proof.
  unfold effect, bind. intros H. inversion H as [[Ho Hd]].
  rewrite Ho. reflexivity.
Qed.

Lemma bind_returns {A B} (m : M A) (k : A -> M B) fs a :
  returns m fs a -> effect (bind m k fs) = effect (k a fs).
Proof. apply bind_ok. Qed.

Lemma debug_returns message fs : returns (debug message) fs tt.
Proof. reflexivity. Qed.

Lemma bind_debug {B} message (k : unit -> M B) fs :
  effect (bind (debug message) k fs) = effect (k tt fs).
Proof. apply bind_returns, debug_returns. Qed.

Lemma effect_outcome {A} (r : run A) o fs : effect r = (o, fs) -> outcome r = o.
Proof. unfold effect. congruence. Qed.

Lemma effect_disk {A} (r : run A) o fs : effect r = (o, fs) -> disk r = fs.
Proof. unfold effect. congruence. Qed.

Lemma lift_effect {A} (r : result A) fs : effect (lift r fs) = (r, fs).
Proof. now destruct r. Qed.

(** ** The prober *)

Lemma freeze_lines_filter lines : forall packages,
  freeze_lines (filter (Str.contains "==") lines) packages
  = freeze_lines lines packages.
Proof.
  induction lines as [|line rest IH]; intros packages; [reflexivity|].
  cbn [filter freeze_lines].
  destruct (Str.contains "==" line) eqn:E; [|apply IH].
  cbn [freeze_lines]. rewrite E.
  destruct (Str.split "==" line) as [|? [|? [|? ?]]]; auto.
Qed.

Lemma freeze_lines_nodup lines : forall packages current_packages,
  NoDup (Dict.keys packages) ->
  freeze_lines lines packages = Ok current_packages ->
  NoDup (Dict.keys current_packages).
Proof.
  induction lines as [|line rest IH]; intros packages current Hnd H.
  - cbn in H. congruence.
  - cbn [freeze_lines] in H.
    destruct (Str.contains "==" line); [|eauto].
    destruct (Str.split "==" line) as [|name [|version [|? ?]]];
      try discriminate.
    eapply IH; [|exact H]. now apply nodup_keys_set.
Qed.

Lemma get_installed_packages_effect pip fs :
  exists r, effect (get_installed_packages pip fs) = (r, fs)
            /\ forall S, r = Ok S -> NoDup (Dict.keys S).
Proof.
  destruct pip as [stdout|]; cbn [get_installed_packages].
  - eexists. split; [apply lift_effect|].
    intros S H. eapply freeze_lines_nodup; [|exact H]. constructor.
  - eexists. split; [reflexivity|]. discriminate.
Qed.

(** A line with two separators does not unpack into [name, version]. *)
Example freeze_two_separators :
  outcome (get_installed_packages (Completed "a==b==c") None)
  = Raise ValueError.
Proof. reflexivity. Qed.

(** ** The two loops of the reconciliation *)

Lemma toml_eq_str_true current version :
  toml_eq_str current version = true -> current = TStr version.
Proof.
  destruct current; simpl; try discriminate.
  intros H. apply String.eqb_eq in H. now subst.
Qed.

Lemma add_or_update_returns items : forall deps fs,
  returns (add_or_update items deps) fs (fold_left assign items deps).
Proof.
  induction items as [|[package version] rest IH]; intros deps fs.
  - reflexivity.
  - cbn [add_or_update fold_left].
    destruct (negb (Dict.mem package deps) || _) eqn:E.
    + unfold returns. rewrite bind_debug. apply IH.
    + replace (assign deps (package, version)) with deps; [apply IH|].
      apply orb_false_elim in E. destruct E as [_ E].
      destruct (Dict.get package deps) as [current|] eqn:G; [|discriminate].
      apply negb_false_iff, toml_eq_str_true in E. subst current.
      unfold assign. cbn [fst snd]. symmetry. now apply set_get_id.
Qed.

Lemma remove_packages_cons to_remove : forall k v deps deps' fs,
  (forall pkg, In pkg to_remove -> pkg <> k) ->
  returns (remove_packages to_remove deps) fs deps' ->
  returns (remove_packages to_remove ((k, v) :: deps)) fs ((k, v) :: deps').
Proof.
  induction to_remove as [|pkg rest IH]; intros k v deps deps' fs Hne H.
  - unfold returns, effect, ret in *. cbn in *. congruence.
  - unfold returns in *. cbn [remove_packages] in *.
    rewrite bind_debug in *. cbn [Dict.pop].
    destruct (String.eqb_spec pkg k) as [->|_].
    + exfalso. apply (Hne k); [now left | reflexivity].
    + destruct (Dict.pop pkg deps) as [deps1|]; [|discriminate].
      apply IH; [|exact H]. intros x Hin. apply Hne. now right.
Qed.

Lemma remove_packages_returns (current_packages : dict string) deps : forall fs,
  returns (remove_packages (uninstalled current_packages deps) deps) fs
          (filter (fun entry => Dict.mem (fst entry) current_packages) deps).
Proof.
  unfold uninstalled.
  induction deps as [|[k v] deps IH]; intros fs; [reflexivity|].
  cbn [Dict.keys map filter fst].
  destruct (Dict.mem k current_packages) eqn:E; cbn [negb].
  - apply remove_packages_cons; [|apply IH].
    intros pkg Hin ->. apply filter_In in Hin. destruct Hin as [_ Hin].
    rewrite E in Hin. discriminate.
  - unfold returns. cbn [remove_packages]. rewrite bind_debug.
    cbn [Dict.pop]. rewrite String.eqb_refl. apply IH.
Qed.

Lemma get_fold_assign items : forall deps k,
  NoDup (Dict.keys items) ->
  Dict.get k (fold_left assign items deps)
  = match Dict.get k items with
    | Some version => Some (TStr version)
    | None => Dict.get k deps
    end.
Proof.
  induction items as [|[package version] rest IH]; intros deps k Hnd.
  - reflexivity.
  - cbn [fold_left]. inversion Hnd as [|? ? Hnin Hnd']; subst.
    rewrite IH by assumption. cbn [Dict.get]. unfold assign. cbn [fst snd].
    destruct (String.eqb_spec k package) as [->|Hne].
    + destruct (Dict.get package rest) eqn:G.
      * exfalso. apply Hnin. apply get_in_keys. congruence.
      * apply get_set_same.
    + destruct (Dict.get k rest); [reflexivity|].
      apply get_set_other. congruence.
Qed.

Lemma get_reconciled current_packages deps k :
  NoDup (Dict.keys current_packages) ->
  Dict.get k (reconciled current_packages deps)
  = option_map TStr (Dict.get k current_packages).
Proof.
  intros Hnd. unfold reconciled.
  rewrite (get_filter (fun x => Dict.mem x current_packages)).
  rewrite get_fold_assign by assumption. unfold Dict.mem.
  now destruct (Dict.get k current_packages).
Qed.

(** ** What a reconciliation does to the file *)

Lemma initialize_pyproject_returns fs :
  effect (initialize_pyproject fs) = (Ok tt, initialized fs).
Proof. now destruct fs. Qed.

Lemma probe_effect pip fs :
  effect (get_installed_packages pip fs) = (probe pip, fs).
Proof. destruct pip; [apply lift_effect | reflexivity]. Qed.

Lemma read_toml_effect fs :
  effect (read_toml fs) = (outcome (read_toml fs), fs).
Proof.
  destruct fs as [f|]; [|reflexivity]. cbn.
  destruct (readable f); [|reflexivity]. now destruct (body f).
Qed.

Lemma load_and_merge_effect current_packages fs :
  effect (load_and_merge current_packages fs)
  = (match outcome (read_toml fs) with
     | Raise e => Raise e
     | Ok d => merged_document current_packages d
     end, fs).
Proof.
  unfold load_and_merge. pose proof (read_toml_effect fs) as Hr.
  destruct (outcome (read_toml fs)) as [d|e].
  - rewrite (bind_ok _ _ _ _ _ Hr). unfold merged_document.
    destruct (locate_dependencies d) as [r|e].
    + rewrite (bind_ok _ _ fs r fs) by apply lift_effect.
      rewrite (bind_returns _ _ _ _ (add_or_update_returns _ _ _)).
      rewrite (bind_returns _ _ _ _ (remove_packages_returns _ _ _)).
      reflexivity.
    + apply bind_raise. apply lift_effect.
  - now apply bind_raise.
Qed.

Lemma save_effect project_data fs :
  effect (save project_data fs) = effect (write_toml project_data fs).
Proof.
  unfold save, effect, bind, write_toml.
  destruct fs as [f|]; [destruct (writable f)|]; reflexivity.
Qed.

Lemma reconcile_installed_packages_effect pip fs :
  effect (reconcile_installed_packages pip fs) = reconcile_effect pip fs.
Proof.
  unfold reconcile_installed_packages, reconcile_effect.
  rewrite bind_debug.
  rewrite (bind_ok _ _ _ _ _ (initialize_pyproject_returns fs)).
  pose proof (probe_effect pip (initialized fs)) as Hp.
  destruct (probe pip) as [current|e]; [|now apply bind_raise].
  rewrite (bind_ok _ _ _ _ _ Hp).
  pose proof (load_and_merge_effect current (initialized fs)) as Hl.
  destruct (outcome (read_toml (initialized fs))) as [d|e];
    [|now apply bind_raise].
  destruct (merged_document current d) as [project_data|e];
    [|now apply bind_raise].
  rewrite (bind_ok _ _ _ _ _ Hl). apply save_effect.
Qed.

(** ** The aliases into the document *)

Lemma setdefault_spec (k : string) (v : toml) (d : dict toml) :
  let (value, d') := Dict.setdefault k v d in
  Dict.get k d' = Some value
  /\ value = match Dict.get k d with Some v' => v' | None => v end
  /\ (forall k', k <> k' -> Dict.get k' d' = Dict.get k' d)
  /\ (d' = d \/ Dict.get k d = None).
Proof.
  unfold Dict.setdefault. destruct (Dict.get k d) eqn:G.
  - repeat split; auto.
  - repeat split; auto using get_set_same.
    intros k' Hne. now apply get_set_other.
Qed.

Lemma listed_project_data_of r deps :
  listed_dependencies (project_data_of r deps) = Ok deps.
Proof.
  unfold listed_dependencies, project_data_of, get_table.
  rewrite get_set_same. cbn [as_table].
  rewrite get_set_same. cbn [as_table].
  now rewrite get_set_same.
Qed.


Lemma locate_listed d r :
  locate_dependencies d = Ok r -> listed_dependencies d = Ok (dependencies r).
Proof.
  unfold locate_dependencies, listed_dependencies, get_table, Dict.setdefault.
  destruct (Dict.get "tool" d) as [tool_value|].
  - destruct (as_table tool_value) as [tool0|]; [|discriminate].
    destruct (Dict.get "custom" tool0) as [custom_value|].
    + destruct (as_table custom_value) as [custom0|]; [|discriminate].
      destruct (Dict.get "dependencies" custom0) as [deps_value|].
      * destruct (as_table deps_value); [|discriminate].
        intros H. now inversion H.
      * cbn. intros H. now inversion H.
    + cbn. intros H. now inversion H.
  - cbn. intros H. now inversion H.
Qed.

Lemma locate_root_frame d r :
  locate_dependencies d = Ok r ->
  forall k, k <> "tool" -> Dict.get k (root r) = Dict.get k d.
Proof.
  unfold locate_dependencies.
  pose proof (setdefault_spec "tool" (TTable []) d) as Hs.
  destruct (Dict.setdefault "tool" (TTable []) d) as [tool_value root'].
  destruct Hs as (_ & _ & Hframe & _).
  destruct (as_table tool_value) as [tool0|]; [|discriminate].
  destruct (Dict.setdefault "custom" (TTable []) tool0) as [cv tool'].
  destruct (as_table cv) as [custom0|]; [|discriminate].
  destruct (Dict.setdefault "dependencies" (TTable []) custom0) as [dv custom'].
  destruct (as_table dv); [|discriminate].
  intros H k Hne. inversion H; subst. cbn [root]. apply Hframe. congruence.
Qed.

Lemma project_data_of_frame r deps k :
  k <> "tool" -> Dict.get k (project_data_of r deps) = Dict.get k (root r).
Proof. intros Hne. unfold project_data_of. apply get_set_other. congruence. Qed.

Lemma write_toml_ok project_data fs :
  outcome (write_toml project_data fs) = Ok tt ->
  persisted (disk (write_toml project_data fs)) = Some project_data.
Proof.
  destruct fs as [f|]; cbn; [|reflexivity].
  destruct (writable f); cbn; [reflexivity | discriminate].
Qed.

Lemma write_toml_raise project_data fs e :
  outcome (write_toml project_data fs) = Raise e ->
  disk (write_toml project_data fs) = fs.
Proof.
  destruct fs as [f|]; cbn; [|discriminate].
  destruct (writable f); cbn; [discriminate | reflexivity].
Qed.

(** A successful reconciliation, taken apart. *)
Lemma reconcile_ok_inv pip fs :
  outcome (reconcile_installed_packages pip fs) = Ok tt ->
  exists current_packages d r,
    probe pip = Ok current_packages
    /\ outcome (read_toml (initialized fs)) = Ok d
    /\ locate_dependencies d = Ok r
    /\ persisted (disk (reconcile_installed_packages pip fs))
       = Some (project_data_of r
                 (reconciled current_packages (dependencies r))).
Proof.
  intros Hok.
  pose proof (reconcile_installed_packages_effect pip fs) as He.
  unfold reconcile_effect in He.
  destruct (probe pip) as [current|e] eqn:Hp;
    [|apply effect_outcome in He; congruence].
  destruct (outcome (read_toml (initialized fs))) as [d|e] eqn:Hr;
    [|apply effect_outcome in He; congruence].
  unfold merged_document in He.
  destruct (locate_dependencies d) as [r|e] eqn:Hl;
    [|apply effect_outcome in He; congruence].
  exists current, d, r. do 3 (split; [first [assumption | reflexivity]|]).
  assert (Ho := f_equal fst He). assert (Hd := f_equal snd He).
  unfold effect in Ho, Hd. cbn [fst snd] in Ho, Hd.
  rewrite Hd. apply write_toml_ok. congruence.
Qed.

(** A reconciliation completes whenever pip answers with lines that unpack,
    and the manifest is absent or is a document that can be read and
    written and has tables on the way to the dependencies. *)
Lemma reconcile_completes pip fs current_packages f d r :
  probe pip = Ok current_packages ->
  initialized fs = Some f ->
  readable f = true -> writable f = true -> body f = Document d ->
  locate_dependencies d = Ok r ->
  outcome (reconcile_installed_packages pip fs) = Ok tt.
Proof.
  intros Hp Hi Hr Hw Hb Hl.
  pose proof (reconcile_installed_packages_effect pip fs) as He.
  apply effect_outcome with (fs := snd (reconcile_effect pip fs)).
  rewrite He. unfold reconcile_effect, merged_document.
  rewrite Hp, Hi. cbn [read_toml]. rewrite Hr, Hb. cbn [outcome].
  rewrite Hl. cbn [effect write_toml snd]. rewrite Hw. reflexivity.
Qed.

Lemma reconcile_completes_first_run pip current_packages :
  probe pip = Ok current_packages ->
  outcome (reconcile_installed_packages pip None) = Ok tt.
Proof.
  intros Hp.
  now apply (reconcile_completes pip None current_packages default_file
               default_project_data
               (mkRef default_project_data
                  [("custom", TTable [("dependencies", TTable [])])]
                  [("dependencies", TTable [])] [])).
Qed.

(** C1: when [reconcile_installed_packages] completes, the dependency table
    of the persisted manifest holds exactly the installed set the prober
    returned: every installed name with its version, and no other name. *)
Theorem reconcile_converges pip fs :
  outcome (reconcile_installed_packages pip fs) = Ok tt ->
  exists current_packages d deps,
    outcome (get_installed_packages pip fs) = Ok current_packages
    /\ persisted (disk (reconcile_installed_packages pip fs)) = Some d
    /\ listed_dependencies d = Ok deps
    /\ (forall name version,
           Dict.get name current_packages = Some version ->
           Dict.get name deps = Some (TStr version))
    /\ (forall name,
           Dict.get name current_packages = None ->
           Dict.get name deps = None).
Proof.
  intros Hok.
  destruct (reconcile_ok_inv pip fs Hok) as (current & d & r & Hp & _ & _ & Hd).
  pose proof (probe_effect pip fs) as He. apply effect_outcome in He.
  assert (Hnd : NoDup (Dict.keys current)).
  { destruct (get_installed_packages_effect pip fs) as (o & Ho & Hnd).
    apply effect_outcome in Ho. apply Hnd. congruence. }
  exists current,
    (project_data_of r (reconciled current (dependencies r))),
    (reconciled current (dependencies r)).
  split; [congruence|]. split; [exact Hd|].
  split; [apply listed_project_data_of|].
  split.
  - intros name version G. rewrite get_reconciled by assumption.
    now rewrite G.
  - intros name G. rewrite get_reconciled by assumption. now rewrite G.
Qed.

Lemma reconcile_converges_witness :
  exists current_packages d deps,
    outcome (get_installed_packages
               (Completed ("flask==2.3.3" ++ lf ++ "six==1.16.0" ++ lf))
               (manifest_with
                  [("flask", TStr "2.0.0"); ("toml", TStr "0.10.2")]))
    = Ok current_packages
    /\ persisted
         (disk (reconcile_installed_packages
                  (Completed ("flask==2.3.3" ++ lf ++ "six==1.16.0" ++ lf))
                  (manifest_with
                     [("flask", TStr "2.0.0"); ("toml", TStr "0.10.2")])))
       = Some d
    /\ listed_dependencies d = Ok deps
    /\ (forall name version,
           Dict.get name current_packages = Some version ->
           Dict.get name deps = Some (TStr version))
    /\ (forall name,
           Dict.get name current_packages = None ->
           Dict.get name deps = None).
Proof.
  apply (reconcile_converges
           (Completed ("flask==2.3.3" ++ lf ++ "six==1.16.0" ++ lf))
           (manifest_with [("flask", TStr "2.0.0"); ("toml", TStr "0.10.2")])).
  reflexivity.
Defined.

(** ** Reconciling twice *)

Lemma in_get {V} (d : dict V) k v :
  NoDup (Dict.keys d) -> In (k, v) d -> Dict.get k d = Some v.
Proof.
  induction d as [|[k0 v0] d IH]; cbn; intros Hnd Hin; [tauto|].
  inversion Hnd as [|? ? Hnin Hnd']; subst.
  destruct Hin as [E|Hin].
  - inversion E; subst. now rewrite String.eqb_refl.
  - destruct (String.eqb_spec k k0) as [->|_]; [|auto].
    exfalso. apply Hnin. change k0 with (fst (k0, v)). now apply in_map.
Qed.



Lemma probe_nodup pip current_packages :
  probe pip = Ok current_packages -> NoDup (Dict.keys current_packages).
Proof.
  destruct pip as [stdout|]; cbn; [|discriminate].
  apply freeze_lines_nodup. constructor.
Qed.




Lemma disk_reconcile pip fs :
  disk (reconcile_installed_packages pip fs) = snd (reconcile_effect pip fs).
Proof.
  rewrite <- reconcile_installed_packages_effect. reflexivity.
Qed.


(** ** What a reconciliation leaves alone *)

Lemma get_table_setdefault k (d t : dict toml) :
  as_table (fst (Dict.setdefault k (TTable []) d)) = Ok t ->
  get_table k d = Ok t
  /\ forall k', k <> k' ->
       Dict.get k' (snd (Dict.setdefault k (TTable []) d)) = Dict.get k' d.
Proof.
  unfold get_table, Dict.setdefault.
  destruct (Dict.get k d) as [value|]; cbn [fst snd]; intros H.
  - split; [exact H | reflexivity].
  - split; [exact H|]. intros k' Hne. now apply get_set_other.
Qed.

Lemma locate_frames d r :
  locate_dependencies d = Ok r ->
  exists tool0 custom0,
    get_table "tool" d = Ok tool0
    /\ get_table "custom" tool0 = Ok custom0
    /\ (forall k, "tool" <> k -> Dict.get k (root r) = Dict.get k d)
    /\ (forall k, "custom" <> k -> Dict.get k (tool r) = Dict.get k tool0)
    /\ (forall k, "dependencies" <> k ->
                  Dict.get k (custom r) = Dict.get k custom0).
Proof.
  unfold locate_dependencies.
  pose proof (get_table_setdefault "tool" d) as H1.
  destruct (Dict.setdefault "tool" (TTable []) d) as [tv root'].
  cbn [fst snd] in H1.
  destruct (as_table tv) as [tool0|]; [|discriminate].
  destruct (H1 tool0 eq_refl) as [Ht Hfr1].
  pose proof (get_table_setdefault "custom" tool0) as H2.
  destruct (Dict.setdefault "custom" (TTable []) tool0) as [cv tool'].
  cbn [fst snd] in H2.
  destruct (as_table cv) as [custom0|]; [|discriminate].
  destruct (H2 custom0 eq_refl) as [Hc Hfr2].
  pose proof (get_table_setdefault "dependencies" custom0) as H3.
  destruct (Dict.setdefault "dependencies" (TTable []) custom0) as [dv custom'].
  cbn [fst snd] in H3.
  destruct (as_table dv) as [deps0|]; [|discriminate].
  destruct (H3 deps0 eq_refl) as [_ Hfr3].
  intros H. inversion H; subst. cbn [root tool custom].
  exists tool0, custom0. auto.
Qed.

(** The document a reconciliation leaves is the one it found, or the one it
    found with another dependency table. *)
Lemma reconcile_disk_cases pip f d :
  body f = Document d ->
  disk (reconcile_installed_packages pip (Some f)) = Some f
  \/ exists r deps,
       locate_dependencies d = Ok r
       /\ disk (reconcile_installed_packages pip (Some f))
          = Some (mkFile (Document (project_data_of r deps)) (readable f) true).
Proof.
  intros Hb. rewrite disk_reconcile. unfold reconcile_effect.
  cbn [initialized].
  destruct (probe pip) as [current|]; [|now left].
  cbn [read_toml]. destruct (readable f) eqn:Hread; [|now left].
  rewrite Hb. cbn [outcome]. unfold merged_document.
  destruct (locate_dependencies d) as [r|] eqn:Hl; [|now left].
  cbn [effect write_toml]. destruct (writable f); [|now left].
  right. exists r, (reconciled current (dependencies r)).
  split; [reflexivity|]. cbn. now rewrite Hread.
Qed.

(** C5: whatever a reconciliation does, the manifest keeps every top-level
    section other than [tool] as it was, the build-system section among
    them; inside [tool] only [custom] and inside [tool.custom] only
    [dependencies] can differ. *)
Theorem reconcile_preserves_build_system pip f d :
  body f = Document d ->
  exists d',
    persisted (disk (reconcile_installed_packages pip (Some f))) = Some d'
    /\ Dict.get "build-system" d' = Dict.get "build-system" d
    /\ (forall k, k <> "tool" -> Dict.get k d' = Dict.get k d)
    /\ (forall tool0 tool1 k,
           get_table "tool" d = Ok tool0 -> get_table "tool" d' = Ok tool1 ->
           k <> "custom" -> Dict.get k tool1 = Dict.get k tool0)
    /\ (forall tool0 tool1 custom0 custom1 k,
           get_table "tool" d = Ok tool0 -> get_table "tool" d' = Ok tool1 ->
           get_table "custom" tool0 = Ok custom0 ->
           get_table "custom" tool1 = Ok custom1 ->
           k <> "dependencies" -> Dict.get k custom1 = Dict.get k custom0).
Proof.
  intros Hb.
  destruct (reconcile_disk_cases pip f d Hb) as [Hsame|(r & deps & Hl & Hnew)].
  - exists d. rewrite Hsame. cbn [persisted]. rewrite Hb.
    split; [reflexivity|]. split; [reflexivity|]. split; [reflexivity|].
    split.
    + intros tool0 tool1 k H0 H1 _. congruence.
    + intros tool0 tool1 custom0 custom1 k H0 H1 H2 H3 _. congruence.
  - exists (project_data_of r deps). rewrite Hnew. cbn [persisted body].
    destruct (locate_frames d r Hl) as (t0 & c0 & Ht & Hc & Hf1 & Hf2 & Hf3).
    assert (Htop : forall k, k <> "tool" ->
                 Dict.get k (project_data_of r deps) = Dict.get k d).
    { intros k Hne. rewrite project_data_of_frame by assumption.
      apply Hf1. congruence. }
    split; [reflexivity|]. split; [apply Htop; discriminate|].
    split; [exact Htop|].
    assert (Htool : get_table "tool" (project_data_of r deps)
                    = Ok (Dict.set "custom"
                            (TTable (Dict.set "dependencies" (TTable deps)
                                       (custom r))) (tool r))).
    { unfold get_table, project_data_of. now rewrite get_set_same. }
    split.
    + intros tool0 tool1 k H0 H1 Hne.
      rewrite Htool in H1. inversion H1; subst.
      rewrite get_set_other by congruence.
      rewrite Hf2 by congruence. congruence.
    + intros tool0 tool1 custom0 custom1 k H0 H1 H2 H3 Hne.
      rewrite Htool in H1. inversion H1; subst.
      unfold get_table in H3. rewrite get_set_same in H3. cbn in H3.
      inversion H3; subst.
      rewrite get_set_other by congruence.
      rewrite Hf3 by congruence. congruence.
Qed.

Lemma reconcile_preserves_build_system_witness :
  exists d',
    persisted
      (disk (reconcile_installed_packages
               (Completed ("flask==2.3.3" ++ lf))
               (manifest_with [("six", TStr "1.16.0")])))
    = Some d'
    /\ Dict.get "build-system" d' = Some default_build_system.
Proof.
  destruct (reconcile_preserves_build_system
              (Completed ("flask==2.3.3" ++ lf))
              (mkFile
                 (Document
                    [("tool", TTable [("custom", TTable [("dependencies",
                                TTable [("six", TStr "1.16.0")])])]);
                     ("build-system", default_build_system)])
                 true true)
              _ eq_refl) as (d' & Hd & Hbs & _).
  exists d'. split; [exact Hd | exact Hbs].
Defined.

(** ** A reconciliation that fails *)

(** An input on which the claim C7 fails: no manifest exists and the
    interpreter cannot be started; the reconciliation raises, and the
    manifest file has been created. *)
Lemma reconcile_failure_creates_manifest :
  outcome (reconcile_installed_packages CannotStart None) = Raise OSError
  /\ disk (reconcile_installed_packages CannotStart None) = Some default_file
  /\ disk (reconcile_installed_packages CannotStart None) <> None.
Proof. repeat split; discriminate. Qed.

(** C7, amended: a reconciliation that raises writes nothing of what it
    computed.  A manifest that existed is left as it was; when none existed,
    the file is the default manifest that [initialize_pyproject] created. *)
Theorem reconcile_failure_leaves_manifest pip fs e :
  outcome (reconcile_installed_packages pip fs) = Raise e ->
  disk (reconcile_installed_packages pip fs) = initialized fs
  /\ (forall f, fs = Some f ->
                disk (reconcile_installed_packages pip fs) = Some f)
  /\ (fs = None ->
      disk (reconcile_installed_packages pip fs) = Some default_file).
Proof.
  intros Hr.
  assert (H : disk (reconcile_installed_packages pip fs) = initialized fs).
  { pose proof (reconcile_installed_packages_effect pip fs) as He.
    assert (Ho := f_equal fst He). assert (Hd := f_equal snd He).
    unfold effect in Ho, Hd. cbn [fst snd] in Ho, Hd.
    rewrite Hd. rewrite Ho in Hr. clear He Ho Hd.
    unfold reconcile_effect in *.
    destruct (probe pip) as [current|]; [|reflexivity].
    destruct (outcome (read_toml (initialized fs))) as [d|]; [|reflexivity].
    destruct (merged_document current d); [|reflexivity].
    cbn [effect fst snd] in *. eapply write_toml_raise. exact Hr. }
  split; [exact H|]. split.
  - intros f ->. exact H.
  - intros ->. exact H.
Qed.

Lemma reconcile_failure_leaves_manifest_witness :
  outcome (reconcile_installed_packages (Completed "a==b==c")
             (manifest_with [("flask", TStr "2.0.0")]))
  = Raise ValueError
  /\ disk (reconcile_installed_packages (Completed "a==b==c")
             (manifest_with [("flask", TStr "2.0.0")]))
     = manifest_with [("flask", TStr "2.0.0")].
Proof.
  split; [reflexivity|].
  exact (proj1 (reconcile_failure_leaves_manifest (Completed "a==b==c")
                  (manifest_with [("flask", TStr "2.0.0")]) ValueError
                  eq_refl)).
Defined.

(** ** Recording one package *)

Lemma update_pyproject_effect package version fs :
  effect (update_pyproject package version fs)
  = match outcome (read_toml (initialized fs)) with
    | Raise e => (Raise e, initialized fs)
    | Ok d =>
        match locate_dependencies d with
        | Raise e => (Raise e, initialized fs)
        | Ok r =>
            effect (write_toml
                      (project_data_of r
                         (Dict.set package (TStr version) (dependencies r)))
                      (initialized fs))
        end
    end.
Proof.
  unfold update_pyproject.
  rewrite (bind_ok _ _ _ _ _ (initialize_pyproject_returns fs)).
  pose proof (read_toml_effect (initialized fs)) as Hr.
  destruct (outcome (read_toml (initialized fs))) as [d|e];
    [|now apply bind_raise].
  rewrite (bind_ok _ _ _ _ _ Hr).
  destruct (locate_dependencies d) as [r|e];
    [|apply bind_raise; apply lift_effect].
  rewrite (bind_ok _ _ (initialized fs) r (initialized fs))
    by apply lift_effect.
  rewrite (bind_returns _ _ _
             (Dict.set package (TStr version) (dependencies r)));
    [reflexivity|].
  unfold returns.
  destruct (Dict.get package (dependencies r)) as [current|] eqn:G.
  - destruct (toml_eq_str current version) eqn:E.
    + rewrite bind_debug. apply toml_eq_str_true in E. subst current.
      now rewrite (set_get_id _ _ _ G).
    + now rewrite bind_debug.
  - now rewrite bind_debug.
Qed.

(** C10: [update_pyproject(p, v)] leaves a manifest whose dependency table
    maps [p] to [v] and agrees with the table it found on every other name;
    when no manifest file exists, the default manifest (no dependency, the
    default build-system section) is created first and the call completes
    with [p] as its only dependency. *)
Theorem update_pyproject_records package version :
  (disk (initialize_pyproject None) = manifest_with []
   /\ outcome (update_pyproject package version None) = Ok tt
   /\ disk (update_pyproject package version None)
      = manifest_with [(package, TStr version)])
  /\ forall fs,
      outcome (update_pyproject package version fs) = Ok tt ->
      exists d0 before d after,
        persisted (initialized fs) = Some d0
        /\ listed_dependencies d0 = Ok before
        /\ persisted (disk (update_pyproject package version fs)) = Some d
        /\ listed_dependencies d = Ok after
        /\ Dict.get package after = Some (TStr version)
        /\ forall name, name <> package ->
                        Dict.get name after = Dict.get name before.
Proof.
  split; [repeat split|].
  intros fs Hok.
  pose proof (update_pyproject_effect package version fs) as He.
  assert (Hrd : forall d, outcome (read_toml (initialized fs)) = Ok d ->
                          persisted (initialized fs) = Some d).
  { intros d. destruct (initialized fs) as [f|]; cbn; [|discriminate].
    destruct (readable f); [|discriminate].
    destruct (body f); cbn; congruence. }
  destruct (outcome (read_toml (initialized fs))) as [d0|e];
    [|apply effect_outcome in He; congruence].
  destruct (locate_dependencies d0) as [r|e] eqn:Hl;
    [|apply effect_outcome in He; congruence].
  assert (Ho := f_equal fst He). assert (Hd := f_equal snd He).
  unfold effect in Ho, Hd. cbn [fst snd] in Ho, Hd.
  exists d0, (dependencies r),
    (project_data_of r (Dict.set package (TStr version) (dependencies r))),
    (Dict.set package (TStr version) (dependencies r)).
  split; [now apply Hrd|].
  split; [now apply locate_listed|].
  split; [rewrite Hd; apply write_toml_ok; congruence|].
  split; [apply listed_project_data_of|].
  split; [apply get_set_same|].
  intros name Hne. apply get_set_other. congruence.
Qed.

Lemma update_pyproject_records_witness :
  exists d0 before d after,
    persisted (initialized (manifest_with [("flask", TStr "2.0.0")])) = Some d0
    /\ listed_dependencies d0 = Ok before
    /\ persisted (disk (update_pyproject "six" "1.16.0"
                          (manifest_with [("flask", TStr "2.0.0")])))
       = Some d
    /\ listed_dependencies d = Ok after
    /\ Dict.get "six" after = Some (TStr "1.16.0")
    /\ forall name, name <> "six" ->
                    Dict.get name after = Dict.get name before.
Proof.
  apply (proj2 (update_pyproject_records "six" "1.16.0")
           (manifest_with [("flask", TStr "2.0.0")])).
  reflexivity.
Defined.

(** ** The precondition of the monitor *)

Lemma is_virtual_env_run sys base fs :
  base_prefix sys = Some base ->
  is_virtual_env sys fs
  = mkRun (Ok (hasattr (real_prefix sys)
               || negb (String.eqb base (prefix sys))))
          fs
          ["[DEBUG] sys.prefix: " ++ prefix sys;
           "[DEBUG] sys.base_prefix: " ++ base].
Proof.
  intros Hb. unfold is_virtual_env. rewrite Hb. reflexivity.
Qed.

Lemma monitor_virtualenv_run sys site_packages_dir sched fs base :
  base_prefix sys = Some base ->
  monitor_virtualenv sys site_packages_dir sched fs
  = if hasattr (real_prefix sys) || negb (String.eqb base (prefix sys))
    then
      let r := run_threads sched (mkThreads Waiting Waiting) fs in
      mkRun (outcome r) (disk r)
        (("[DEBUG] sys.prefix: " ++ prefix sys)
         :: ("[DEBUG] sys.base_prefix: " ++ base)
         :: ("[DEBUG] Monitoring " ++ site_packages_dir ++ " for changes...")
         :: printed r)
    else
      mkRun (Raise (SystemExit 1)) fs
        ["[DEBUG] sys.prefix: " ++ prefix sys;
         "[DEBUG] sys.base_prefix: " ++ base;
         "Error: This script must be run inside a virtual environment."].
Proof.
  intros Hb. unfold monitor_virtualenv.
  unfold bind at 1. rewrite (is_virtual_env_run sys base fs Hb).
  cbn [outcome disk printed].
  now destruct (hasattr (real_prefix sys)
                || negb (String.eqb base (prefix sys))).
Qed.

(** An input on which the claim C9 fails: the two prefixes are equal, and
    the monitor does not exit but goes on to reconcile. *)
Lemma monitor_proceeds_on_equal_prefixes :
  base_prefix legacy_virtualenv = Some (prefix legacy_virtualenv)
  /\ outcome (monitor_virtualenv legacy_virtualenv "/home/u/venv/lib"
                (repeat (Watcher, Completed "") 5) None)
     = Ok (mkThreads Waiting Waiting)
  /\ disk (monitor_virtualenv legacy_virtualenv "/home/u/venv/lib"
             (repeat (Watcher, Completed "") 5) None)
     = manifest_with []
  /\ reconciliations
       (printed (monitor_virtualenv legacy_virtualenv "/home/u/venv/lib"
                   (repeat (Watcher, Completed "") 5) None))
     = 1.
Proof. repeat split. Qed.

(** C9, amended: the check passes when [sys] has a [real_prefix] or when
    [sys.base_prefix] differs from [sys.prefix], and the monitor then starts
    its threads; with no [real_prefix] and equal prefixes the monitor prints
    the error and exits with status 1, the manifest untouched and no
    reconciliation started. *)
Theorem monitor_precondition sys site_packages_dir sched fs base :
  base_prefix sys = Some base ->
  (real_prefix sys <> None \/ base <> prefix sys ->
   effect (monitor_virtualenv sys site_packages_dir sched fs)
   = effect (run_threads sched (mkThreads Waiting Waiting) fs)
   /\ printed (monitor_virtualenv sys site_packages_dir sched fs)
      = ("[DEBUG] sys.prefix: " ++ prefix sys)
        :: ("[DEBUG] sys.base_prefix: " ++ base)
        :: ("[DEBUG] Monitoring " ++ site_packages_dir ++ " for changes...")
        :: printed (run_threads sched (mkThreads Waiting Waiting) fs))
  /\ (real_prefix sys = None /\ base = prefix sys ->
      outcome (monitor_virtualenv sys site_packages_dir sched fs)
      = Raise (SystemExit 1)
      /\ disk (monitor_virtualenv sys site_packages_dir sched fs) = fs
      /\ printed (monitor_virtualenv sys site_packages_dir sched fs)
         = ["[DEBUG] sys.prefix: " ++ prefix sys;
            "[DEBUG] sys.base_prefix: " ++ base;
            "Error: This script must be run inside a virtual environment."]
      /\ reconciliations
           (printed (monitor_virtualenv sys site_packages_dir sched fs))
         = 0).
Proof.
  intros Hb.
  rewrite (monitor_virtualenv_run sys site_packages_dir sched fs base Hb).
  split.
  - intros Hin.
    assert (E : hasattr (real_prefix sys)
                || negb (String.eqb base (prefix sys)) = true).
    { destruct Hin as [H|H].
      - destruct (real_prefix sys); [reflexivity | congruence].
      - apply orb_true_iff. right. apply negb_true_iff.
        now apply String.eqb_neq. }
    rewrite E. cbn [negb]. split; reflexivity.
  - intros [Hreal Heq]. rewrite Hreal. subst base.
    rewrite String.eqb_refl. cbn [hasattr negb orb].
    split; [reflexivity|]. split; [reflexivity|]. split; [reflexivity|].
    cbn [printed]. unfold reconciliations. apply count_occ_not_In.
    intros [H|[H|[H|[]]]]; discriminate H.
Qed.

Lemma monitor_precondition_witness :
  outcome (monitor_virtualenv (mkSys None (Some "/usr") "/usr") "/usr/lib"
             [(Timer, Completed "")] (manifest_with []))
  = Raise (SystemExit 1)
  /\ effect (monitor_virtualenv (mkSys None (Some "/usr") "/home/u/venv")
               "/home/u/venv/lib" [(Timer, Completed "")] (manifest_with []))
     = effect (run_threads [(Timer, Completed "")] (mkThreads Waiting Waiting)
                 (manifest_with [])).
Proof.
  split.
  - apply (proj2 (monitor_precondition (mkSys None (Some "/usr") "/usr")
                    "/usr/lib" [(Timer, Completed "")] (manifest_with [])
                    "/usr" eq_refl)).
    split; reflexivity.
  - apply (proj1 (monitor_precondition
                    (mkSys None (Some "/usr") "/home/u/venv")
                    "/home/u/venv/lib" [(Timer, Completed "")]
                    (manifest_with []) "/usr" eq_refl)).
    right. discriminate.
Defined.

(** ** Counting the reconciliations of a run *)

Lemma printed_bind {A B} (m : M A) (k : A -> M B) fs :
  printed (bind m k fs)
  = (printed (m fs)
     ++ match outcome (m fs) with
        | Ok a => printed (k a (disk (m fs)))
        | Raise _ => []
        end)%list.
Proof.
  unfold bind. destruct (outcome (m fs)); cbn [printed]; [reflexivity|].
  now rewrite app_nil_r.
Qed.

Lemma reconciliations_app l1 l2 :
  reconciliations (l1 ++ l2)
  = reconciliations l1 + reconciliations l2.
Proof. apply count_occ_app. Qed.

Lemma reconciliations_bind {A B} (m : M A) (k : A -> M B) fs :
  reconciliations (printed (bind m k fs))
  = reconciliations (printed (m fs))
    + match outcome (m fs) with
      | Ok a => reconciliations (printed (k a (disk (m fs))))
      | Raise _ => 0
      end.
Proof.
  rewrite printed_bind. unfold reconciliations. rewrite count_occ_app.
  now destruct (outcome (m fs)).
Qed.

Lemma silent_bind {A B} (m : M A) (k : A -> M B) :
  silent m -> (forall a, silent (k a)) -> silent (bind m k).
Proof.
  intros Hm Hk fs. rewrite reconciliations_bind, Hm.
  destruct (outcome (m fs)); [apply Hk | reflexivity].
Qed.

Lemma silent_debug message :
  "[DEBUG] " ++ message <> "[DEBUG] " ++ reconciling -> silent (debug message).
Proof.
  intros Hne fs. unfold reconciliations. cbn [debug print printed count_occ].
  destruct (string_dec _ _); [contradiction | reflexivity].
Qed.

Lemma silent_ret {A} (a : A) : silent (ret a).
Proof. intros fs. reflexivity. Qed.

Lemma silent_raise {A} e : silent (@raise A e).
Proof. intros fs. reflexivity. Qed.

Lemma silent_lift {A} (r : result A) : silent (lift r).
Proof. destruct r; [apply silent_ret | apply silent_raise]. Qed.

Lemma silent_read_toml : silent read_toml.
Proof.
  intros [f|]; cbn; [|reflexivity].
  destruct (readable f); [|reflexivity]. now destruct (body f).
Qed.

Lemma silent_write_toml project_data : silent (write_toml project_data).
Proof. intros [f|]; cbn; [|reflexivity]. now destruct (writable f). Qed.

Ltac other_line := apply silent_debug; cbn; discriminate.

Lemma silent_initialize_pyproject : silent initialize_pyproject.
Proof. intros [f|]; reflexivity. Qed.

Lemma silent_get_installed_packages pip : silent (get_installed_packages pip).
Proof. destruct pip; [apply silent_lift | apply silent_raise]. Qed.

Lemma silent_add_or_update items : forall deps,
  silent (add_or_update items deps).
Proof.
  induction items as [|[package version] rest IH]; intros deps.
  - apply silent_ret.
  - cbn [add_or_update]. destruct (_ || _); [|apply IH].
    apply silent_bind; [other_line | intros _; apply IH].
Qed.

Lemma silent_remove_packages to_remove : forall deps,
  silent (remove_packages to_remove deps).
Proof.
  induction to_remove as [|pkg rest IH]; intros deps.
  - apply silent_ret.
  - cbn [remove_packages]. apply silent_bind; [other_line|].
    intros _. destruct (Dict.pop pkg deps); [apply IH | apply silent_raise].
Qed.

Lemma silent_load_and_merge current_packages :
  silent (load_and_merge current_packages).
Proof.
  unfold load_and_merge.
  apply silent_bind; [apply silent_read_toml | intros d].
  apply silent_bind; [apply silent_lift | intros r].
  apply silent_bind; [apply silent_add_or_update | intros deps].
  apply silent_bind; [apply silent_remove_packages | intros deps'].
  apply silent_ret.
Qed.

Lemma silent_save project_data : silent (save project_data).
Proof.
  unfold save. apply silent_bind; [apply silent_write_toml | intros _].
  other_line.
Qed.

(** Every call of [reconcile_installed_packages] announces itself once. *)
Lemma reconcile_announced_once pip fs :
  reconciliations (printed (reconcile_installed_packages pip fs)) = 1.
Proof.
  unfold reconcile_installed_packages.
  rewrite reconciliations_bind. cbn [debug print outcome disk printed].
  replace (reconciliations ["[DEBUG] " ++ reconciling]) with 1 by reflexivity.
  cbn [Nat.add]. f_equal.
  apply (silent_bind initialize_pyproject);
    [apply silent_initialize_pyproject | intros _].
  apply silent_bind; [apply silent_get_installed_packages | intros current].
  apply silent_bind; [apply silent_load_and_merge | intros project_data].
  apply silent_save.
Qed.

Lemma on_any_event_announced_once event pip fs :
  reconciliations (printed (on_any_event event pip fs)) = 1.
Proof.
  unfold on_any_event. rewrite reconciliations_bind.
  cbn [debug print outcome disk printed].
  apply reconcile_announced_once.
Qed.

(** ** Bursts of filesystem events *)

(** An input on which the claim C4 fails: two events delivered at the same
    instant start two reconciliations. *)
Lemma burst_of_two_reconciles_twice :
  reconciliations
    (printed (dispatch_events
                [(mkEvent Created "site-packages/six.py" 0, Completed "");
                 (mkEvent Modified "site-packages/six.py" 0, Completed "")]
                None))
  = 2.
Proof. reflexivity. Qed.

(** C4, amended: there is no debouncing.  Every event handed to
    [on_any_event] starts one reconciliation, whenever it arrives: a queue
    of N events that is worked off without an error starts N of them. *)
Theorem every_event_reconciles queue : forall fs,
  outcome (dispatch_events queue fs) = Ok tt ->
  reconciliations (printed (dispatch_events queue fs)) = List.length queue.
Proof.
  induction queue as [|[event pip] rest IH]; intros fs Hok; [reflexivity|].
  cbn [dispatch_events List.length] in *.
  rewrite reconciliations_bind, on_any_event_announced_once.
  unfold bind in Hok.
  destruct (outcome (on_any_event event pip fs)); [|discriminate].
  cbn [outcome] in Hok. now rewrite IH.
Qed.

Lemma every_event_reconciles_witness :
  reconciliations
    (printed (dispatch_events
                [(mkEvent Created "site-packages/six.py" 0,
                  Completed ("six==1.16.0" ++ lf));
                 (mkEvent Modified "site-packages/six.py" 40,
                  Completed ("six==1.16.0" ++ lf));
                 (mkEvent Created "site-packages/six-1.16.0.dist-info" 90,
                  Completed ("six==1.16.0" ++ lf))]
                (manifest_with [])))
  = 3.
Proof.
  apply (every_event_reconciles
           [(mkEvent Created "site-packages/six.py" 0,
             Completed ("six==1.16.0" ++ lf));
            (mkEvent Modified "site-packages/six.py" 40,
             Completed ("six==1.16.0" ++ lf));
            (mkEvent Created "site-packages/six-1.16.0.dist-info" 90,
             Completed ("six==1.16.0" ++ lf))]
           (manifest_with [])).
  reflexivity.
Defined.

(** ** Errors inside a reconciliation *)

Lemma bind_run_ok {A B} (m : M A) (k : A -> M B) fs a :
  outcome (m fs) = Ok a ->
  bind m k fs
  = mkRun (outcome (k a (disk (m fs)))) (disk (k a (disk (m fs))))
          (printed (m fs) ++ printed (k a (disk (m fs)))).
Proof. intros H. unfold bind. now rewrite H. Qed.

Lemma bind_run_raise {A B} (m : M A) (k : A -> M B) fs e :
  outcome (m fs) = Raise e ->
  bind m k fs = mkRun (Raise e) (disk (m fs)) (printed (m fs)).
Proof. intros H. unfold bind. now rewrite H. Qed.

(** An input on which the claim C8 fails: the first wake-up of the timer
    thread cannot start pip; the exception leaves the loop, the second
    wake-up never reconciles, and the thread is dead for every later step.
    The handler of the observer thread ends with the exception as well. *)
Lemma periodic_trigger_stops_after_error :
  outcome (periodic_reconcile [CannotStart; Completed ""]
             (manifest_with [("flask", TStr "2.0.0")]))
  = Raise OSError
  /\ reconciliations
       (printed (periodic_reconcile [CannotStart; Completed ""]
                   (manifest_with [("flask", TStr "2.0.0")])))
     = 1
  /\ outcome (run_threads (repeat (Timer, CannotStart) 3
                           ++ repeat (Timer, Completed "") 5)%list
                (mkThreads Waiting Waiting)
                (manifest_with [("flask", TStr "2.0.0")]))
     = Ok (mkThreads Waiting (Dead OSError))
  /\ reconciliations
       (printed (run_threads (repeat (Timer, CannotStart) 3
                              ++ repeat (Timer, Completed "") 5)%list
                   (mkThreads Waiting Waiting)
                   (manifest_with [("flask", TStr "2.0.0")])))
     = 1
  /\ outcome (on_any_event (mkEvent Modified "site-packages/six.py" 0)
                CannotStart (manifest_with [("flask", TStr "2.0.0")]))
     = Raise OSError.
Proof. repeat split. Qed.

Lemma periodic_reconcile_counts ticks : forall fs,
  outcome (periodic_reconcile ticks fs) = Ok tt ->
  reconciliations (printed (periodic_reconcile ticks fs)) = List.length ticks.
Proof.
  induction ticks as [|pip rest IH]; intros fs Hok; [reflexivity|].
  cbn [periodic_reconcile List.length] in *.
  rewrite reconciliations_bind, reconcile_announced_once.
  unfold bind in Hok.
  destruct (outcome (reconcile_installed_packages pip fs)); [|discriminate].
  cbn [outcome] in Hok. now rewrite IH.
Qed.

(** C8, amended: nothing catches an error of a reconciliation.
    [on_any_event] ends as the reconciliation ends, so the exception goes to
    the observer thread; the loop of [periodic_reconcile] ends with the first
    reconciliation that raises, and no later wake-up reconciles.  While no
    reconciliation raises, every wake-up of the timer performs one. *)
Theorem reconcile_errors_propagate :
  (forall event pip fs,
      effect (on_any_event event pip fs)
      = effect (reconcile_installed_packages pip fs))
  /\ (forall ticks fs,
         outcome (periodic_reconcile ticks fs) = Ok tt ->
         reconciliations (printed (periodic_reconcile ticks fs))
         = List.length ticks)
  /\ (forall before pip after fs e,
         outcome (periodic_reconcile before fs) = Ok tt ->
         outcome (reconcile_installed_packages pip
                    (disk (periodic_reconcile before fs))) = Raise e ->
         outcome (periodic_reconcile (before ++ pip :: after)%list fs) = Raise e
         /\ disk (periodic_reconcile (before ++ pip :: after)%list fs)
            = disk (reconcile_installed_packages pip
                      (disk (periodic_reconcile before fs)))
         /\ reconciliations
              (printed (periodic_reconcile (before ++ pip :: after)%list fs))
            = List.length before + 1).
Proof.
  split; [|split].
  - intros event pip fs. unfold on_any_event. apply bind_debug.
  - apply periodic_reconcile_counts.
  - intros before. induction before as [|tick rest IH];
      intros pip after fs e Hok Hraise.
    + cbn [app periodic_reconcile ret disk] in *.
      rewrite (bind_run_raise _ _ _ _ Hraise). cbn [outcome disk printed].
      split; [reflexivity|]. split; [reflexivity|].
      apply reconcile_announced_once.
    + cbn [app periodic_reconcile List.length] in *.
      destruct (outcome (reconcile_installed_packages tick fs)) as [[]|e0]
        eqn:Htick.
      * rewrite (bind_run_ok _ (fun _ => periodic_reconcile rest) _ _ Htick)
          in Hok, Hraise |- *.
        rewrite (bind_run_ok _ _ _ _ Htick).
        cbn [outcome disk printed] in *.
        destruct (IH pip after _ e Hok Hraise) as (Ho & Hd & Hc).
        split; [exact Ho|]. split; [exact Hd|].
        rewrite reconciliations_app, Hc, reconcile_announced_once.
        reflexivity.
      * rewrite (bind_run_raise _ _ _ _ Htick) in Hok. discriminate.
Qed.

Lemma reconcile_errors_propagate_witness :
  reconciliations
    (printed (periodic_reconcile
                [Completed ("six==1.16.0" ++ lf); Completed ""]
                (manifest_with [])))
  = 2
  /\ outcome (periodic_reconcile
                ([Completed ("six==1.16.0" ++ lf)]
                 ++ Completed "a==b==c" :: [Completed ""])%list
                (manifest_with []))
     = Raise ValueError.
Proof.
  split.
  - apply (proj1 (proj2 reconcile_errors_propagate)
             [Completed ("six==1.16.0" ++ lf); Completed ""]
             (manifest_with [])).
    reflexivity.
  - apply (proj2 (proj2 reconcile_errors_propagate)
             [Completed ("six==1.16.0" ++ lf)] (Completed "a==b==c")
             [Completed ""] (manifest_with []) ValueError).
    + reflexivity.
    + reflexivity.
Defined.

(** ** The two threads *)






(** ** More about strings *)

Example strip_examples :
  Text.strip ("  2 " ++ lf) = "2" /\ Text.strip " 1.0 rc " = "1.0 rc"
  /\ Text.strip "   " = "" /\ Text.join "==" ["a"; "b"; "c"] = "a==b==c".
Proof. repeat split. Qed.

Lemma split_from_nonempty sep s : forall skip,
  Str.split_from sep skip s <> [].
Proof.
  induction s as [|c s IH]; intros skip; cbn [Str.split_from].
  - discriminate.
  - destruct skip; [|apply IH].
    destruct (String.prefix sep (String c s)); [discriminate|].
    destruct (Str.split_from sep 0 s); discriminate.
Qed.

Lemma prefix_empty sep : sep <> "" -> String.prefix sep "" = false.
Proof. destruct sep; [congruence | reflexivity]. Qed.

(** [sep in s] holds exactly when [s.split(sep)] has at least two parts. *)
Lemma contains_split sep s :
  sep <> "" ->
  Str.contains sep s = true <-> 2 <= List.length (Str.split sep s).
Proof.
  intros Hsep. unfold Str.split.
  induction s as [|c s IH]; cbn [Str.contains Str.split_from].
  - rewrite prefix_empty by assumption. cbn. split; [discriminate | lia].
  - destruct (String.prefix sep (String c s)) eqn:E; cbn [orb].
    + pose proof (split_from_nonempty sep s (String.length sep - 1)) as Hne.
      destruct (Str.split_from sep (String.length sep - 1) s);
        [congruence|]. cbn. split; [lia | reflexivity].
    + pose proof (split_from_nonempty sep s 0) as Hne.
      destruct (Str.split_from sep 0 s) as [|h t]; [congruence|].
      rewrite IH. cbn. reflexivity.
Qed.

Lemma prefix_drop sep : forall s,
  String.prefix sep s = true -> s = sep ++ Text.drop (String.length sep) s.
Proof.
  induction sep as [|a sep IH]; intros s H; [reflexivity|].
  destruct s as [|c s]; [discriminate|]. cbn in H.
  destruct (Ascii.ascii_dec a c) as [->|]; [|discriminate].
  cbn. f_equal. now apply IH.
Qed.

Lemma drop_pred n c s :
  0 < n -> Text.drop n (String c s) = Text.drop (n - 1) s.
Proof. destruct n; [lia|]. intros _. cbn. now rewrite Nat.sub_0_r. Qed.

Lemma join_cons_char sep c h t :
  Text.join sep (String c h :: t) = String c (Text.join sep (h :: t)).
Proof. destruct t; reflexivity. Qed.

Lemma join_split_from sep s : forall skip,
  sep <> "" ->
  Text.join sep (Str.split_from sep skip s) = Text.drop skip s.
Proof.
  induction s as [|c s IH]; intros skip Hsep; cbn [Str.split_from].
  - now destruct skip.
  - destruct skip as [|n]; [|cbn [Text.drop]; now apply IH].
    cbn [Text.drop].
    destruct (String.prefix sep (String c s)) eqn:E.
    + pose proof (split_from_nonempty sep s (String.length sep - 1)) as Hne.
      specialize (IH (String.length sep - 1) Hsep).
      destruct (Str.split_from sep (String.length sep - 1) s) as [|h t];
        [congruence|].
      change (Text.join sep ("" :: h :: t))
        with ("" ++ sep ++ Text.join sep (h :: t)).
      rewrite IH. cbn [String.append].
      transitivity (sep ++ Text.drop (String.length sep) (String c s));
        [|symmetry; now apply prefix_drop].
      rewrite drop_pred; [reflexivity|].
      destruct sep; [congruence | cbn; lia].
    + pose proof (split_from_nonempty sep s 0) as Hne.
      specialize (IH 0 Hsep).
      destruct (Str.split_from sep 0 s) as [|h t]; [congruence|].
      rewrite join_cons_char, IH. reflexivity.
Qed.

(** Joining the parts of a split gives the string back. *)
Lemma join_split sep s : sep <> "" -> Text.join sep (Str.split sep s) = s.
Proof. intros H. apply (join_split_from sep s 0 H). Qed.

Lemma split_pair line name version :
  Str.split "==" line = [name; version] -> name ++ "==" ++ version = line.
Proof.
  intros H. rewrite <- (join_split "==" line) by discriminate.
  now rewrite H.
Qed.

(** ** More about the prober *)

Lemma freeze_lines_raise lines : forall packages e,
  freeze_lines lines packages = Raise e
  <-> e = ValueError
      /\ exists line, In line lines
                      /\ 3 <= List.length (Str.split "==" line).
Proof.
  induction lines as [|line rest IH]; intros packages e.
  - cbn. split; [discriminate | intros (_ & l & [] & _)].
  - cbn [freeze_lines].
    assert (Hsep : "==" <> "") by discriminate.
    pose proof (contains_split "==" line Hsep) as Hc.
    destruct (Str.contains "==" line) eqn:E.
    + assert (H2 : 2 <= List.length (Str.split "==" line)) by now apply Hc.
      destruct (Str.split "==" line) as [|a [|b [|c t]]] eqn:Es;
        cbn in H2; try lia.
      * rewrite IH. split; intros (He & l & Hin & Hl).
        -- split; [exact He|]. exists l. split; [now right | exact Hl].
        -- split; [exact He|]. exists l. split; [|exact Hl].
           destruct Hin as [<-|Hin]; [|exact Hin].
           rewrite Es in Hl. cbn in Hl. lia.
      * split.
        -- intros H. inversion H. split; [reflexivity|].
           exists line. split; [now left|]. rewrite Es. cbn. lia.
        -- intros (-> & _). reflexivity.
    + assert (H1 : ~ 2 <= List.length (Str.split "==" line)).
      { intros H. apply Hc in H. congruence. }
      rewrite IH. split; intros (He & l & Hin & Hl).
      * split; [exact He|]. exists l. split; [now right | exact Hl].
      * split; [exact He|]. exists l. split; [|exact Hl].
        destruct Hin as [<-|Hin]; [lia | exact Hin].
Qed.

(** X1: [get_installed_packages] raises in two cases only: the interpreter
    cannot be started (OSError), or some line of the output holds "==" twice
    or more, so that it does not unpack into a name and a version
    (ValueError).  On every other output it returns a mapping. *)
Theorem get_installed_packages_raises pip fs e :
  outcome (get_installed_packages pip fs) = Raise e
  <-> (pip = CannotStart /\ e = OSError)
      \/ (e = ValueError
          /\ exists stdout line,
               pip = Completed stdout
               /\ In line (Str.splitlines stdout)
               /\ 3 <= List.length (Str.split "==" line)).
Proof.
  pose proof (probe_effect pip fs) as He. apply effect_outcome in He.
  rewrite He. destruct pip as [stdout|]; cbn [probe].
  - rewrite freeze_lines_raise. split.
    + intros (Hv & line & Hin & Hl). right. split; [exact Hv|].
      now exists stdout, line.
    + intros [[H _]|(Hv & out & line & Heq & Hin & Hl)]; [discriminate|].
      inversion Heq; subst out. split; [exact Hv|]. now exists line.
  - split.
    + intros H. inversion H. now left.
    + intros [[_ ->]|(_ & out & line & Heq & _)]; [reflexivity|discriminate].
Qed.

Lemma freeze_lines_entries lines : forall packages current_packages,
  freeze_lines lines packages = Ok current_packages ->
  forall name version,
    Dict.get name current_packages = Some version ->
    Dict.get name packages = Some version
    \/ In (name ++ "==" ++ version) lines.
Proof.
  induction lines as [|line rest IH]; intros packages current H name version G.
  - cbn in H. inversion H; subst. now left.
  - cbn [freeze_lines] in H.
    destruct (Str.contains "==" line).
    + destruct (Str.split "==" line) as [|a [|b [|c t]]] eqn:Es;
        try discriminate.
      destruct (IH _ _ H name version G) as [G'|Hin]; [|right; now right].
      destruct (String.eqb_spec a name) as [->|Hne].
      * rewrite get_set_same in G'. inversion G'; subst.
        right. left. symmetry. now apply split_pair.
      * rewrite get_set_other in G' by assumption. now left.
    + destruct (IH _ _ H name version G) as [G'|Hin];
        [now left | right; now right].
Qed.

(** X2: every entry of the mapping [get_installed_packages] returns is a
    line of pip's output, character for character: the name, "==" and the
    version put together again are a line that pip printed. *)
Theorem installed_entries_are_lines stdout fs current_packages name version :
  outcome (get_installed_packages (Completed stdout) fs)
  = Ok current_packages ->
  Dict.get name current_packages = Some version ->
  In (name ++ "==" ++ version) (Str.splitlines stdout).
Proof.
  intros Ho G.
  pose proof (probe_effect (Completed stdout) fs) as He.
  apply effect_outcome in He. rewrite He in Ho. cbn [probe] in Ho.
  destruct (freeze_lines_entries _ _ _ Ho name version G) as [H|H];
    [discriminate | exact H].
Qed.

Lemma installed_entries_are_lines_witness :
  In ("six" ++ "==" ++ "=1.16.0")
     (Str.splitlines ("flask==2.3.3" ++ lf ++ "six===1.16.0" ++ lf)).
Proof.
  apply (installed_entries_are_lines
           ("flask==2.3.3" ++ lf ++ "six===1.16.0" ++ lf) None
           [("flask", "2.3.3"); ("six", "=1.16.0")] "six" "=1.16.0");
    reflexivity.
Defined.

(** ** The lines the prober reads *)

Lemma mem_set_same {V} k (v : V) d : Dict.mem k (Dict.set k v d) = true.
Proof. unfold Dict.mem. now rewrite get_set_same. Qed.

Lemma mem_set_keeps {V} k k' (v : V) d :
  Dict.mem k d = true -> Dict.mem k (Dict.set k' v d) = true.
Proof.
  intros H. destruct (String.eqb_spec k' k) as [->|Hne].
  - apply mem_set_same.
  - unfold Dict.mem in *. now rewrite get_set_other.
Qed.

Lemma freeze_lines_members lines : forall packages current_packages,
  freeze_lines lines packages = Ok current_packages ->
  forall name,
    Dict.mem name packages = true
    \/ (exists line version,
           In line lines /\ Str.split "==" line = [name; version]) ->
    Dict.mem name current_packages = true.
Proof.
  induction lines as [|line rest IH]; intros packages current H name Hn.
  - cbn in H. inversion H; subst.
    destruct Hn as [Hm|(l & v & [] & _)]. exact Hm.
  - cbn [freeze_lines] in H.
    pose proof (contains_split "==" line ltac:(discriminate)) as Hc.
    destruct (Str.contains "==" line) eqn:E.
    + destruct (Str.split "==" line) as [|a [|b [|c t]]] eqn:Es;
        try discriminate.
      apply (IH _ _ H name).
      destruct Hn as [Hm|(l & v & [<-|Hin] & Hs)].
      * left. now apply mem_set_keeps.
      * left. rewrite Es in Hs. inversion Hs; subst. apply mem_set_same.
      * right. now exists l, v.
    + apply (IH _ _ H name).
      destruct Hn as [Hm|(l & v & [<-|Hin] & Hs)].
      * now left.
      * rewrite Hs in Hc. cbn in Hc.
        assert (false = true) by (apply Hc; lia). discriminate.
      * right. now exists l, v.
Qed.

Lemma matches_name_version_split line :
  matches_name_version line = true ->
  exists name version, Str.split "==" line = [name; version].
Proof.
  unfold matches_name_version.
  destruct (Str.split "==" line) as [|a [|b [|c t]]]; try discriminate.
  intros _. now exists a, b.
Qed.

Lemma matches_name_version_contains line :
  matches_name_version line = true -> Str.contains "==" line = true.
Proof.
  intros H. destruct (matches_name_version_split line H) as (a & b & Hs).
  apply contains_split; [discriminate|]. rewrite Hs. cbn. lia.
Qed.

(** The claim as worded fails on lines that contain "==" without being a
    name, the separator and a version.  A line with the separator twice does
    not match the pattern, and it is not ignored: the output that holds it
    raises ValueError, where the same output without the line gives the
    mapping.  A comment of pip with a pinned requirement in it does not match
    either, and it is read as an entry. *)
Lemma unmatched_line_is_not_ignored :
  matches_name_version "a==b==c" = false
  /\ outcome (get_installed_packages
                (Completed ("flask==2.3.3" ++ lf ++ "a==b==c" ++ lf)) None)
     = Raise ValueError
  /\ outcome (get_installed_packages
                (Completed ("flask==2.3.3" ++ lf)) None)
     = Ok [("flask", "2.3.3")]
  /\ matches_name_version
       "# Editable install with no version control (six==1.16.0)" = false
  /\ outcome (get_installed_packages
                (Completed
                   ("# Editable install with no version control (six==1.16.0)"
                    ++ lf))
                None)
     = Ok [("# Editable install with no version control (six", "1.16.0)")].
Proof. repeat split. Qed.

(** C6 (amended): [get_installed_packages] ignores, without an error, the
    lines that do not contain "==", and only those.  Its result is the
    result on the lines that contain "==" alone; a line in which "==" occurs
    once is read as an entry whatever else it holds; the call raises
    ValueError exactly when "==" occurs twice or more in some line.  On an
    output in which every line that contains "==" matches the pattern
    name==version, the lines that do not match are ignored and the call
    returns a mapping; when no line contains "==" the mapping is empty. *)
Theorem get_installed_packages_reads_separator_lines :
  (forall stdout fs,
      get_installed_packages (Completed stdout) fs
      = lift (freeze_lines
                (filter (Str.contains "==") (Str.splitlines stdout)) []) fs)
  /\ (forall stdout fs current_packages line name version,
         outcome (get_installed_packages (Completed stdout) fs)
         = Ok current_packages ->
         In line (Str.splitlines stdout) ->
         Str.split "==" line = [name; version] ->
         Dict.mem name current_packages = true)
  /\ (forall stdout fs e,
         outcome (get_installed_packages (Completed stdout) fs) = Raise e
         <-> e = ValueError
             /\ exists line,
                  In line (Str.splitlines stdout)
                  /\ 3 <= List.length (Str.split "==" line))
  /\ (forall stdout fs,
         (forall line,
             In line (Str.splitlines stdout) ->
             Str.contains "==" line = true ->
             matches_name_version line = true) ->
         get_installed_packages (Completed stdout) fs
         = lift (freeze_lines
                   (filter matches_name_version (Str.splitlines stdout)) [])
             fs
         /\ exists current_packages,
              outcome (get_installed_packages (Completed stdout) fs)
              = Ok current_packages)
  /\ (forall stdout fs,
         (forall line, In line (Str.splitlines stdout) ->
                       Str.contains "==" line = false) ->
         get_installed_packages (Completed stdout) fs = mkRun (Ok []) fs []).
Proof.
  assert (Hout : forall stdout fs,
             outcome (get_installed_packages (Completed stdout) fs)
             = freeze_lines (Str.splitlines stdout) []).
  { intros stdout fs.
    exact (effect_outcome _ _ _ (probe_effect (Completed stdout) fs)). }
  split; [|split; [|split; [|split]]].
  - intros stdout fs. cbn [get_installed_packages].
    now rewrite freeze_lines_filter.
  - intros stdout fs current line name version Ho Hin Hs.
    rewrite Hout in Ho.
    apply (freeze_lines_members _ _ _ Ho name). right. now exists line, version.
  - intros stdout fs e. rewrite Hout. apply freeze_lines_raise.
  - intros stdout fs Hall.
    assert (Hf : filter matches_name_version (Str.splitlines stdout)
                 = filter (Str.contains "==") (Str.splitlines stdout)).
    { apply filter_ext_in. intros line Hin.
      destruct (Str.contains "==" line) eqn:E.
      - now apply Hall.
      - destruct (matches_name_version line) eqn:Em; [|reflexivity].
        apply matches_name_version_contains in Em. congruence. }
    split.
    + cbn [get_installed_packages]. now rewrite Hf, freeze_lines_filter.
    + rewrite Hout.
      destruct (freeze_lines (Str.splitlines stdout) [])
        as [current|e] eqn:Ef; [now exists current|].
      apply freeze_lines_raise in Ef. destruct Ef as (_ & line & Hin & Hl).
      assert (Hc : Str.contains "==" line = true).
      { apply contains_split; [discriminate | lia]. }
      destruct (matches_name_version_split line (Hall line Hin Hc))
        as (a & b & Hs).
      rewrite Hs in Hl. cbn in Hl. lia.
  - intros stdout fs H. cbn [get_installed_packages].
    rewrite <- freeze_lines_filter.
    replace (filter (Str.contains "==") (Str.splitlines stdout))
      with (@nil string); [reflexivity|].
    symmetry. induction (Str.splitlines stdout) as [|l ls IH]; [reflexivity|].
    cbn [filter]. rewrite (H l (or_introl eq_refl)).
    apply IH. intros line Hin. apply H. now right.
Qed.

Lemma get_installed_packages_reads_separator_lines_witness :
  (get_installed_packages
     (Completed
        ("Could not fetch URL" ++ lf ++ "flask==2.3.3" ++ lf
         ++ "-e git+https://x/y#egg=y" ++ lf ++ "six==1.16.0" ++ lf))
     None
   = lift (freeze_lines ["flask==2.3.3"; "six==1.16.0"] []) None
   /\ exists current_packages,
        outcome (get_installed_packages
                   (Completed
                      ("Could not fetch URL" ++ lf ++ "flask==2.3.3" ++ lf
                       ++ "-e git+https://x/y#egg=y" ++ lf
                       ++ "six==1.16.0" ++ lf))
                   None)
        = Ok current_packages)
  /\ get_installed_packages
       (Completed
          ("Could not fetch URL" ++ lf ++ "-e git+https://x/y#egg=y" ++ lf))
       None
     = mkRun (Ok []) None [].
Proof.
  split.
  - apply (proj1 (proj2 (proj2 (proj2
             get_installed_packages_reads_separator_lines)))
             ("Could not fetch URL" ++ lf ++ "flask==2.3.3" ++ lf
              ++ "-e git+https://x/y#egg=y" ++ lf ++ "six==1.16.0" ++ lf)
             None).
    intros line Hin Hc. vm_compute in Hin.
    destruct Hin as [H|[H|[H|[H|[]]]]]; subst line;
      first [reflexivity | discriminate Hc].
  - apply (proj2 (proj2 (proj2 (proj2
             get_installed_packages_reads_separator_lines)))).
    intros line Hin. vm_compute in Hin.
    destruct Hin as [H|[H|[]]]; subst line; reflexivity.
Defined.

(** ** More about the reconciliation *)

Lemma read_toml_persisted fs d :
  outcome (read_toml fs) = Ok d ->
  exists f, fs = Some f /\ readable f = true /\ body f = Document d.
Proof.
  destruct fs as [f|]; cbn; [|discriminate].
  destruct (readable f) eqn:Hr; [|discriminate].
  destruct (body f) eqn:Hb; cbn; [|discriminate].
  intros H. inversion H; subst. now exists f.
Qed.


Lemma locate_dependencies_raise d e :
  locate_dependencies d = Raise e -> e = AttributeError.
Proof.
  assert (Ha : forall v e0, as_table v = Raise e0 -> e0 = AttributeError).
  { intros v e0. destruct v; cbn; intros H; inversion H; reflexivity. }
  unfold locate_dependencies.
  destruct (Dict.setdefault "tool" (TTable []) d) as [tv root'].
  destruct (as_table tv) as [tool0|e0] eqn:E1;
    [|intros H; inversion H; subst; eauto].
  destruct (Dict.setdefault "custom" (TTable []) tool0) as [cv tool'].
  destruct (as_table cv) as [custom0|e0] eqn:E2;
    [|intros H; inversion H; subst; eauto].
  destruct (Dict.setdefault "dependencies" (TTable []) custom0) as [dv c'].
  destruct (as_table dv) as [deps0|e0] eqn:E3;
    [discriminate | intros H; inversion H; subst; eauto].
Qed.


Lemma outcome_reconcile pip fs :
  outcome (reconcile_installed_packages pip fs)
  = fst (reconcile_effect pip fs).
Proof.
  rewrite <- reconcile_installed_packages_effect. reflexivity.
Qed.





Lemma keys_set_present {V} k (v : V) d :
  Dict.mem k d = true -> Dict.keys (Dict.set k v d) = Dict.keys d.
Proof.
  unfold Dict.mem, Dict.keys.
  induction d as [|[k0 v0] d IH]; cbn; [discriminate|].
  destruct (String.eqb k k0); cbn; [reflexivity|].
  intros H. now rewrite IH.
Qed.

Lemma set_absent {V} k (v : V) d :
  Dict.mem k d = false -> Dict.set k v d = (d ++ [(k, v)])%list.
Proof.
  unfold Dict.mem. induction d as [|[k0 v0] d IH]; cbn; [reflexivity|].
  destruct (String.eqb k k0); cbn; [discriminate|].
  intros H. now rewrite IH.
Qed.

Lemma mem_set {V} k k' (v : V) d :
  Dict.mem k' (Dict.set k v d) = String.eqb k' k || Dict.mem k' d.
Proof.
  unfold Dict.mem. destruct (String.eqb_spec k' k) as [->|Hne].
  - now rewrite get_set_same.
  - rewrite get_set_other by congruence. reflexivity.
Qed.

Lemma keys_fold_assign items : forall deps,
  NoDup (Dict.keys items) ->
  Dict.keys (fold_left assign items deps)
  = (Dict.keys deps
     ++ filter (fun k => negb (Dict.mem k deps)) (Dict.keys items))%list.
Proof.
  induction items as [|[k v] rest IH]; intros deps Hnd.
  - cbn. now rewrite app_nil_r.
  - inversion Hnd as [|? ? Hnin Hnd']; subst.
    cbn [fold_left]. rewrite IH by assumption.
    unfold assign. cbn [fst snd].
    change (Dict.keys ((k, v) :: rest)) with (k :: Dict.keys rest).
    cbn [filter].
    assert (Hf : filter (fun k0 => negb (Dict.mem k0
                                           (Dict.set k (TStr v) deps)))
                   (Dict.keys rest)
                 = filter (fun k0 => negb (Dict.mem k0 deps))
                     (Dict.keys rest)).
    { apply filter_ext_in. intros k0 Hin. rewrite mem_set.
      destruct (String.eqb_spec k0 k) as [->|]; [contradiction|reflexivity]. }
    rewrite Hf. destruct (Dict.mem k deps) eqn:E; cbn [negb].
    + now rewrite keys_set_present.
    + rewrite set_absent by assumption. unfold Dict.keys.
      rewrite map_app, <- app_assoc. reflexivity.
Qed.

Lemma keys_filter {V} (p : string -> bool) (d : dict V) :
  Dict.keys (filter (fun entry => p (fst entry)) d) = filter p (Dict.keys d).
Proof.
  unfold Dict.keys.
  induction d as [|[k v] d IH]; cbn; [reflexivity|].
  destruct (p k); cbn; now rewrite IH.
Qed.

Lemma filter_all {A} (p : A -> bool) (l : list A) :
  (forall x, In x l -> p x = true) -> filter p l = l.
Proof.
  induction l as [|a l IH]; intros H; [reflexivity|].
  cbn [filter]. rewrite (H a) by now left.
  f_equal. apply IH. intros x Hin. apply H. now right.
Qed.

Lemma keys_reconciled current_packages deps :
  NoDup (Dict.keys current_packages) ->
  Dict.keys (reconciled current_packages deps)
  = (filter (fun k => Dict.mem k current_packages) (Dict.keys deps)
     ++ filter (fun k => negb (Dict.mem k deps))
          (Dict.keys current_packages))%list.
Proof.
  intros Hnd. unfold reconciled.
  rewrite (keys_filter (fun k => Dict.mem k current_packages)).
  rewrite keys_fold_assign by assumption. rewrite filter_app. f_equal.
  apply filter_all. intros k Hin. apply filter_In in Hin.
  destruct Hin as [Hin _]. apply mem_get, get_in_keys. exact Hin.
Qed.

(** A successful reconciliation, with the file it read and the file it
    wrote. *)
Lemma reconcile_ok_file pip fs :
  outcome (reconcile_installed_packages pip fs) = Ok tt ->
  exists current_packages f d r,
    probe pip = Ok current_packages
    /\ initialized fs = Some f
    /\ readable f = true
    /\ body f = Document d
    /\ locate_dependencies d = Ok r
    /\ disk (reconcile_installed_packages pip fs)
       = Some (mkFile
                 (Document (project_data_of r
                              (reconciled current_packages (dependencies r))))
                 true true).
Proof.
  intros Hok. rewrite outcome_reconcile in Hok. rewrite disk_reconcile.
  unfold reconcile_effect in *.
  destruct (probe pip) as [current|] eqn:Hp; [|discriminate].
  destruct (outcome (read_toml (initialized fs))) as [d|] eqn:Hr;
    [|discriminate].
  destruct (read_toml_persisted _ _ Hr) as (f & Hf & Hread & Hb).
  unfold merged_document in *.
  destruct (locate_dependencies d) as [r|] eqn:Hl; [|discriminate].
  exists current, f, d, r. rewrite Hf in *.
  cbn [effect write_toml fst snd] in *.
  destruct (writable f); [|discriminate]. cbn [disk]. rewrite Hread.
  repeat split; first [assumption | reflexivity].
Qed.

(** X4: a reconciliation keeps the order of the manifest.  The names it
    leaves are the old names that are still installed, in their old order,
    followed by the newly installed names in the order pip printed them. *)
Theorem reconcile_keeps_order pip fs :
  outcome (reconcile_installed_packages pip fs) = Ok tt ->
  exists current_packages d0 old d1 new,
    outcome (get_installed_packages pip fs) = Ok current_packages
    /\ persisted (initialized fs) = Some d0
    /\ listed_dependencies d0 = Ok old
    /\ persisted (disk (reconcile_installed_packages pip fs)) = Some d1
    /\ listed_dependencies d1 = Ok new
    /\ Dict.keys new
       = (filter (fun k => Dict.mem k current_packages) (Dict.keys old)
          ++ filter (fun k => negb (Dict.mem k old))
               (Dict.keys current_packages))%list.
Proof.
  intros Hok.
  destruct (reconcile_ok_file pip fs Hok)
    as (current & f & d & r & Hp & Hf & Hread & Hb & Hl & Hd).
  exists current, d, (dependencies r),
    (project_data_of r (reconciled current (dependencies r))),
    (reconciled current (dependencies r)).
  split.
  { pose proof (probe_effect pip fs) as He. apply effect_outcome in He.
    congruence. }
  split; [rewrite Hf; cbn; now rewrite Hb|].
  split; [now apply locate_listed|].
  split; [now rewrite Hd|].
  split; [apply listed_project_data_of|].
  apply keys_reconciled. eapply probe_nodup. exact Hp.
Qed.

Lemma reconcile_keeps_order_witness :
  exists current_packages d0 old d1 new,
    outcome (get_installed_packages
               (Completed ("six==1.16.0" ++ lf ++ "flask==2.3.3" ++ lf
                           ++ "attrs==23.1.0" ++ lf))
               (manifest_with [("toml", TStr "0.10.2");
                               ("flask", TStr "2.0.0")]))
    = Ok current_packages
    /\ persisted (initialized (manifest_with [("toml", TStr "0.10.2");
                                              ("flask", TStr "2.0.0")]))
       = Some d0
    /\ listed_dependencies d0 = Ok old
    /\ persisted
         (disk (reconcile_installed_packages
                  (Completed ("six==1.16.0" ++ lf ++ "flask==2.3.3" ++ lf
                              ++ "attrs==23.1.0" ++ lf))
                  (manifest_with [("toml", TStr "0.10.2");
                                  ("flask", TStr "2.0.0")])))
       = Some d1
    /\ listed_dependencies d1 = Ok new
    /\ Dict.keys new
       = (filter (fun k => Dict.mem k current_packages) (Dict.keys old)
          ++ filter (fun k => negb (Dict.mem k old))
               (Dict.keys current_packages))%list.
Proof.
  apply (reconcile_keeps_order
           (Completed ("six==1.16.0" ++ lf ++ "flask==2.3.3" ++ lf
                       ++ "attrs==23.1.0" ++ lf))
           (manifest_with [("toml", TStr "0.10.2"); ("flask", TStr "2.0.0")])).
  reflexivity.
Defined.

Example reconcile_order_example :
  disk (reconcile_installed_packages
          (Completed ("six==1.16.0" ++ lf ++ "flask==2.3.3" ++ lf
                      ++ "attrs==23.1.0" ++ lf))
          (manifest_with [("toml", TStr "0.10.2"); ("flask", TStr "2.0.0")]))
  = manifest_with [("flask", TStr "2.3.3"); ("six", TStr "1.16.0");
                   ("attrs", TStr "23.1.0")].
Proof. reflexivity. Qed.





Lemma filter_none {A} (p : A -> bool) (l : list A) :
  (forall x, In x l -> p x = false) -> filter p l = [].
Proof.
  induction l as [|a l IH]; intros H; [reflexivity|].
  cbn [filter]. rewrite (H a) by now left.
  apply IH. intros x Hin. apply H. now right.
Qed.

Lemma reconciled_nothing_installed deps : reconciled [] deps = [].
Proof.
  unfold reconciled. cbn [fold_left].
  induction deps as [|[k v] deps IH]; [reflexivity | exact IH].
Qed.

(** X6: pip's exit status is never looked at.  When its output has no line
    with "==", as when pip failed and printed nothing, a reconciliation that
    completes has removed every dependency from the manifest. *)
Theorem silent_pip_empties_manifest stdout fs :
  (forall line, In line (Str.splitlines stdout) ->
                Str.contains "==" line = false) ->
  outcome (reconcile_installed_packages (Completed stdout) fs) = Ok tt ->
  exists d,
    persisted (disk (reconcile_installed_packages (Completed stdout) fs))
    = Some d
    /\ listed_dependencies d = Ok [].
Proof.
  intros Hlines Hok.
  destruct (reconcile_ok_inv _ _ Hok) as (current & d & r & Hp & _ & _ & Hd).
  assert (Hc : current = []).
  { cbn [probe] in Hp. rewrite <- freeze_lines_filter in Hp.
    rewrite (filter_none _ _ Hlines) in Hp. cbn in Hp. congruence. }
  subst current. rewrite reconciled_nothing_installed in Hd.
  eexists. split; [exact Hd | apply listed_project_data_of].
Qed.

Lemma silent_pip_empties_manifest_witness :
  exists d,
    persisted
      (disk (reconcile_installed_packages
               (Completed ("ERROR: No module named pip" ++ lf))
               (manifest_with [("flask", TStr "2.0.0");
                               ("six", TStr "1.16.0")])))
    = Some d
    /\ listed_dependencies d = Ok [].
Proof.
  apply (silent_pip_empties_manifest ("ERROR: No module named pip" ++ lf)
           (manifest_with [("flask", TStr "2.0.0"); ("six", TStr "1.16.0")])).
  - intros line Hin. vm_compute in Hin. destruct Hin as [H|[]].
    subst line. reflexivity.
  - reflexivity.
Defined.

(** ** More about [update_pyproject] *)

Lemma disk_update_pyproject package version fs :
  disk (update_pyproject package version fs)
  = snd (match outcome (read_toml (initialized fs)) with
         | Raise e => (Raise e, initialized fs)
         | Ok d =>
             match locate_dependencies d with
             | Raise e => (Raise e, initialized fs)
             | Ok r =>
                 effect (write_toml
                           (project_data_of r
                              (Dict.set package (TStr version)
                                 (dependencies r)))
                           (initialized fs))
             end
         end).
Proof. rewrite <- update_pyproject_effect. reflexivity. Qed.



(** What [project_data_of] changes in a document. *)
Lemma project_data_of_frames d r deps :
  locate_dependencies d = Ok r ->
  (forall k, k <> "tool" ->
             Dict.get k (project_data_of r deps) = Dict.get k d)
  /\ (forall tool0 tool1 k,
         get_table "tool" d = Ok tool0 ->
         get_table "tool" (project_data_of r deps) = Ok tool1 ->
         k <> "custom" -> Dict.get k tool1 = Dict.get k tool0)
  /\ (forall tool0 tool1 custom0 custom1 k,
         get_table "tool" d = Ok tool0 ->
         get_table "tool" (project_data_of r deps) = Ok tool1 ->
         get_table "custom" tool0 = Ok custom0 ->
         get_table "custom" tool1 = Ok custom1 ->
         k <> "dependencies" -> Dict.get k custom1 = Dict.get k custom0).
Proof.
  intros Hl.
  destruct (locate_frames d r Hl) as (t0 & c0 & Ht & Hc & Hf1 & Hf2 & Hf3).
  assert (Htool : get_table "tool" (project_data_of r deps)
                  = Ok (Dict.set "custom"
                          (TTable (Dict.set "dependencies" (TTable deps)
                                     (custom r))) (tool r))).
  { unfold get_table, project_data_of. now rewrite get_set_same. }
  split; [|split].
  - intros k Hne. rewrite project_data_of_frame by assumption.
    apply Hf1. congruence.
  - intros tool0 tool1 k H0 H1 Hne.
    rewrite Htool in H1. inversion H1; subst.
    rewrite get_set_other by congruence.
    rewrite Hf2 by congruence. congruence.
  - intros tool0 tool1 custom0 custom1 k H0 H1 H2 H3 Hne.
    rewrite Htool in H1. inversion H1; subst.
    unfold get_table in H3. rewrite get_set_same in H3. cbn in H3.
    inversion H3; subst.
    rewrite get_set_other by congruence.
    rewrite Hf3 by congruence. congruence.
Qed.

(** X9: [update_pyproject] changes nothing but the dependency table.  The
    manifest keeps every top-level section other than [tool], the
    build-system section among them, every entry of [tool] other than
    [custom] and every entry of [tool.custom] other than [dependencies]. *)
Theorem update_pyproject_preserves_sections package version f d :
  body f = Document d ->
  exists d',
    persisted (disk (update_pyproject package version (Some f))) = Some d'
    /\ (forall k, k <> "tool" -> Dict.get k d' = Dict.get k d)
    /\ (forall tool0 tool1 k,
           get_table "tool" d = Ok tool0 -> get_table "tool" d' = Ok tool1 ->
           k <> "custom" -> Dict.get k tool1 = Dict.get k tool0)
    /\ (forall tool0 tool1 custom0 custom1 k,
           get_table "tool" d = Ok tool0 -> get_table "tool" d' = Ok tool1 ->
           get_table "custom" tool0 = Ok custom0 ->
           get_table "custom" tool1 = Ok custom1 ->
           k <> "dependencies" -> Dict.get k custom1 = Dict.get k custom0).
Proof.
  intros Hb. rewrite disk_update_pyproject. cbn [initialized read_toml].
  assert (Hsame : exists d',
             persisted (Some f) = Some d'
             /\ (forall k, k <> "tool" -> Dict.get k d' = Dict.get k d)
             /\ (forall tool0 tool1 k,
                    get_table "tool" d = Ok tool0 ->
                    get_table "tool" d' = Ok tool1 ->
                    k <> "custom" -> Dict.get k tool1 = Dict.get k tool0)
             /\ (forall tool0 tool1 custom0 custom1 k,
                    get_table "tool" d = Ok tool0 ->
                    get_table "tool" d' = Ok tool1 ->
                    get_table "custom" tool0 = Ok custom0 ->
                    get_table "custom" tool1 = Ok custom1 ->
                    k <> "dependencies" ->
                    Dict.get k custom1 = Dict.get k custom0)).
  { exists d. cbn [persisted]. rewrite Hb.
    split; [reflexivity|]. split; [reflexivity|]. split.
    - intros tool0 tool1 k H0 H1 _. congruence.
    - intros tool0 tool1 custom0 custom1 k H0 H1 H2 H3 _. congruence. }
  destruct (readable f); [|exact Hsame].
  rewrite Hb. cbn [outcome].
  destruct (locate_dependencies d) as [r|] eqn:Hl; [|exact Hsame].
  cbn [effect write_toml snd].
  destruct (writable f); cbn [disk]; [|exact Hsame].
  eexists. split; [reflexivity|].
  now apply project_data_of_frames.
Qed.

Lemma update_pyproject_preserves_sections_witness :
  exists d',
    persisted (disk (update_pyproject "six" "1.16.0"
                       (manifest_with [("flask", TStr "2.0.0")])))
    = Some d'
    /\ Dict.get "build-system" d' = Some default_build_system.
Proof.
  destruct (update_pyproject_preserves_sections "six" "1.16.0"
              (mkFile
                 (Document
                    [("tool", TTable [("custom", TTable [("dependencies",
                                TTable [("flask", TStr "2.0.0")])])]);
                     ("build-system", default_build_system)])
                 true true)
              _ eq_refl) as (d' & Hd & Htop & _).
  exists d'. split; [exact Hd|].
  rewrite Htop by discriminate. reflexivity.
Defined.



(** ** Installing from the manifest *)

Lemma bind_print {B} message (k : unit -> M B) fs :
  effect (bind (print message) k fs) = effect (k tt fs).
Proof. reflexivity. Qed.

Lemma spawn_all_ok spawn commands :
  starts_all spawn commands -> spawn_all spawn commands = Ok commands.
Proof.
  induction commands as [|c rest IH]; intros H; [reflexivity|].
  cbn [spawn_all].
  destruct (spawn c) eqn:E; [|now destruct (H c (or_introl eq_refl))].
  rewrite IH; [reflexivity|]. intros c' Hin. apply H. now right.
Qed.


Lemma install_each_effect executable spawn items : forall fs,
  effect (install_each executable spawn items fs)
  = (spawn_all spawn (map (install_command executable) items), fs).
Proof.
  induction items as [|[package version] rest IH]; intros fs.
  - reflexivity.
  - cbn [install_each map spawn_all]. rewrite bind_print.
    unfold install_command at 1. cbn [fst snd]. unfold subprocess_run.
    destruct (spawn (pip_install executable (pkg_str package version))).
    + rewrite (bind_ok _ _ fs tt fs) by reflexivity.
      specialize (IH fs).
      destruct (spawn_all spawn (map (install_command executable) rest)).
      * rewrite (bind_ok _ _ _ _ _ IH). reflexivity.
      * now apply bind_raise.
    + now apply bind_raise.
Qed.

Lemma install_dependencies_effect executable spawn fs :
  effect (install_dependencies_from_pyproject executable spawn fs)
  = (install_commands executable spawn fs, fs).
Proof.
  unfold install_dependencies_from_pyproject, install_commands.
  destruct fs as [f|]; [|reflexivity].
  rewrite (bind_ok _ _ _ true (Some f)) by reflexivity. cbn [negb].
  pose proof (read_toml_effect (Some f)) as Hr.
  destruct (outcome (read_toml (Some f))) as [d|e]; [|now apply bind_raise].
  rewrite (bind_ok _ _ _ _ _ Hr).
  destruct (get_or_empty "tool" (TTable d)) as [tv|e];
    [|apply bind_raise; apply lift_effect].
  rewrite (bind_ok _ _ (Some f) tv (Some f)) by apply lift_effect.
  destruct (get_or_empty "custom" tv) as [cv|e];
    [|apply bind_raise; apply lift_effect].
  rewrite (bind_ok _ _ (Some f) cv (Some f)) by apply lift_effect.
  destruct (get_or_empty "dependencies" cv) as [dv|e];
    [|apply bind_raise; apply lift_effect].
  rewrite (bind_ok _ _ (Some f) dv (Some f)) by apply lift_effect.
  destruct (truthy dv); cbn [negb]; [|reflexivity].
  rewrite bind_print.
  destruct (as_table dv) as [items|e];
    [|apply bind_raise; apply lift_effect].
  rewrite (bind_ok _ _ (Some f) items (Some f)) by apply lift_effect.
  pose proof (install_each_effect executable spawn items (Some f)) as He.
  destruct (spawn_all spawn (map (install_command executable) items)).
  - rewrite (bind_ok _ _ _ _ _ He). reflexivity.
  - now apply bind_raise.
Qed.

Lemma get_or_empty_table k value t :
  as_table value = Ok t ->
  exists v, get_or_empty k value = Ok v /\ as_table v = get_table k t.
Proof.
  intros H. unfold get_or_empty, get_table. rewrite H.
  destruct (Dict.get k t) as [v|]; eexists; split; reflexivity.
Qed.

Lemma as_table_ok value t : as_table value = Ok t -> value = TTable t.
Proof. destruct value; cbn; intros H; inversion H; reflexivity. Qed.

Lemma install_commands_listed executable spawn f d deps :
  readable f = true -> body f = Document d ->
  listed_dependencies d = Ok deps ->
  install_commands executable spawn (Some f)
  = spawn_all spawn (map (install_command executable) deps).
Proof.
  intros Hread Hb Hlisted. unfold install_commands. cbn [read_toml].
  rewrite Hread, Hb. cbn [outcome].
  unfold listed_dependencies in Hlisted.
  destruct (get_table "tool" d) as [t0|] eqn:Ht; [|discriminate].
  destruct (get_or_empty_table "tool" (TTable d) d eq_refl)
    as (tv & -> & Htv). rewrite Ht in Htv.
  destruct (get_table "custom" t0) as [c0|] eqn:Hc; [|discriminate].
  destruct (get_or_empty_table "custom" tv t0 Htv) as (cv & -> & Hcv).
  rewrite Hc in Hcv.
  destruct (get_or_empty_table "dependencies" cv c0 Hcv) as (dv & -> & Hdv).
  rewrite Hlisted in Hdv. apply as_table_ok in Hdv. subst dv.
  cbn [truthy as_table]. now destruct deps.
Qed.

(** X11: [install_dependencies_from_pyproject] only reads the manifest: in
    every case, failures included, and whatever becomes of the commands it
    starts, it leaves the file as it found it.  With no manifest file it
    prints the error and returns without running a command (it does not
    exit), and with a manifest that lists no dependency it runs no command
    either. *)
Theorem install_dependencies_reads_only executable spawn :
  (forall fs,
      disk (install_dependencies_from_pyproject executable spawn fs) = fs)
  /\ install_dependencies_from_pyproject executable spawn None
     = mkRun (Ok []) None
         ["Error: pyproject.toml does not exist. Cannot install dependencies."]
  /\ (forall f d,
         readable f = true -> body f = Document d ->
         listed_dependencies d = Ok [] ->
         outcome (install_dependencies_from_pyproject executable spawn
                    (Some f))
         = Ok []).
Proof.
  split; [|split].
  - intros fs.
    pose proof (install_dependencies_effect executable spawn fs) as He.
    now apply effect_disk in He.
  - reflexivity.
  - intros f d Hread Hb Hl.
    pose proof (install_dependencies_effect executable spawn (Some f)) as He.
    apply effect_outcome in He. rewrite He.
    now rewrite (install_commands_listed executable spawn f d [] Hread Hb Hl).
Qed.

Lemma install_dependencies_reads_only_witness :
  outcome (install_dependencies_from_pyproject "python"
             (fun _ => CannotStart) (manifest_with []))
  = Ok [].
Proof.
  apply (proj2 (proj2 (install_dependencies_reads_only "python"
                         (fun _ => CannotStart)))
           (mkFile
              (Document [("tool", TTable [("custom",
                                     TTable [("dependencies", TTable [])])]);
                         ("build-system", default_build_system)])
              true true)
           _ eq_refl eq_refl eq_refl).
Defined.



(** An integer as version is pinned by its digits, and zero, like the
    empty string, gives the bare name. *)
Example pkg_str_of_integers :
  pkg_str "flask" (TInt 2) = "flask==2" /\ pkg_str "six" (TInt 0) = "six"
  /\ pkg_str "toml" (TInt (-1)) = "toml==-1".
Proof. repeat split. Qed.

(** With an interpreter that cannot be started the loop ends at the first
    entry: the line of that entry is printed, the closing line is not. *)
Example install_without_interpreter :
  install_dependencies_from_pyproject "/nonexistent/python"
    (fun _ => CannotStart)
    (manifest_with [("flask", TStr "2.3.3"); ("six", TStr "")])
  = mkRun (Raise OSError)
      (manifest_with [("flask", TStr "2.3.3"); ("six", TStr "")])
      ["Installing dependencies from pyproject.toml...";
       "Installing flask==2.3.3..."].
Proof. reflexivity. Qed.

Lemma get_in {V} (d : dict V) k v : Dict.get k d = Some v -> In (k, v) d.
Proof.
  induction d as [|[k0 v0] d IH]; cbn; [discriminate|].
  destruct (String.eqb_spec k k0) as [->|_].
  - intros H. inversion H. now left.
  - intros H. right. now apply IH.
Qed.

Lemma nodup_keys_fold_assign items : forall deps,
  NoDup (Dict.keys deps) -> NoDup (Dict.keys (fold_left assign items deps)).
Proof.
  induction items as [|item rest IH]; intros deps H; [exact H|].
  cbn [fold_left]. apply IH. now apply nodup_keys_set.
Qed.

Lemma nodup_keys_reconciled current_packages deps :
  NoDup (Dict.keys deps) ->
  NoDup (Dict.keys (reconciled current_packages deps)).
Proof.
  intros H. unfold reconciled.
  rewrite (keys_filter (fun k => Dict.mem k current_packages)).
  apply NoDup_filter. now apply nodup_keys_fold_assign.
Qed.

(** With distinct keys, the entries of the reconciled table are the
    installed set. *)
Lemma in_reconciled current_packages deps k value :
  NoDup (Dict.keys current_packages) -> NoDup (Dict.keys deps) ->
  In (k, value) (reconciled current_packages deps)
  <-> exists version,
        value = TStr version /\ Dict.get k current_packages = Some version.
Proof.
  intros Hs Hd. split.
  - intros Hin.
    apply in_get in Hin; [|now apply nodup_keys_reconciled].
    rewrite get_reconciled in Hin by assumption.
    destruct (Dict.get k current_packages) as [version|]; [|discriminate].
    inversion Hin. now exists version.
  - intros (version & -> & G). apply get_in.
    rewrite get_reconciled by assumption. now rewrite G.
Qed.

(** X13: installing what a reconciliation recorded.  After a reconciliation
    that completes, on a manifest whose dependency names were distinct, and
    when every command can be started,
    [install_dependencies_from_pyproject] runs one pip install for each
    package pip had listed and for nothing else; every requirement with a
    version is, character for character, a line of that pip output. *)
Theorem install_after_reconcile executable spawn stdout fs d0 old :
  persisted (initialized fs) = Some d0 ->
  listed_dependencies d0 = Ok old ->
  NoDup (Dict.keys old) ->
  outcome (reconcile_installed_packages (Completed stdout) fs) = Ok tt ->
  (forall c, spawn c <> CannotStart) ->
  exists current_packages commands,
    outcome (get_installed_packages (Completed stdout) fs)
    = Ok current_packages
    /\ outcome (install_dependencies_from_pyproject executable spawn
                  (disk (reconcile_installed_packages (Completed stdout) fs)))
       = Ok commands
    /\ (forall c,
           In c commands
           <-> exists name version,
                 Dict.get name current_packages = Some version
                 /\ c = pip_install executable
                          (if String.eqb version "" then name
                           else name ++ "==" ++ version))
    /\ (forall name version,
           Dict.get name current_packages = Some version ->
           In (name ++ "==" ++ version) (Str.splitlines stdout)).
Proof.
  intros Hd0 Hold Hnd Hok Hspawn.
  destruct (reconcile_ok_file _ fs Hok)
    as (current & f & d & r & Hp & Hf & Hread & Hb & Hl & Hdisk).
  assert (Hnds : NoDup (Dict.keys current)) by (eapply probe_nodup; eauto).
  assert (d0 = d).
  { rewrite Hf in Hd0. cbn in Hd0. rewrite Hb in Hd0. congruence. }
  subst d0.
  assert (old = dependencies r).
  { apply locate_listed in Hl. congruence. }
  subst old.
  pose proof (probe_effect (Completed stdout) fs) as Hpe.
  apply effect_outcome in Hpe. rewrite Hp in Hpe.
  exists current,
    (map (install_command executable)
       (reconciled current (dependencies r))).
  split; [exact Hpe|]. split.
  { rewrite Hdisk.
    pose proof (install_dependencies_effect executable spawn
                  (Some (mkFile
                           (Document (project_data_of r
                                        (reconciled current (dependencies r))))
                           true true))) as He.
    apply effect_outcome in He. rewrite He.
    rewrite (install_commands_listed executable spawn
               (mkFile
                  (Document (project_data_of r
                               (reconciled current (dependencies r))))
                  true true)
               (project_data_of r (reconciled current (dependencies r)))
               (reconciled current (dependencies r))
               eq_refl eq_refl (listed_project_data_of _ _)).
    apply spawn_all_ok. intros c _. apply Hspawn. }
  split.
  - intros c. rewrite in_map_iff. split.
    + intros ([k value] & Hc & Hin).
      apply in_reconciled in Hin; [|assumption|assumption].
      destruct Hin as (version & -> & G).
      exists k, version. split; [exact G|]. subst c.
      unfold install_command, pkg_str. cbn [fst snd truthy format_value].
      now destruct (String.eqb version "").
    + intros (name & version & G & ->).
      exists (name, TStr version). split.
      * unfold install_command, pkg_str. cbn [fst snd truthy format_value].
        now destruct (String.eqb version "").
      * apply in_reconciled; [assumption | assumption |]. now exists version.
  - intros name version G. cbn [probe] in Hp.
    destruct (freeze_lines_entries _ _ _ Hp name version G) as [H|H];
      [discriminate | exact H].
Qed.

Lemma install_after_reconcile_witness :
  exists current_packages commands,
    outcome (get_installed_packages after_install
               (manifest_with [("toml", TStr "0.10.2")]))
    = Ok current_packages
    /\ outcome (install_dependencies_from_pyproject "python"
                  (fun _ => Completed "")
                  (disk (reconcile_installed_packages after_install
                           (manifest_with [("toml", TStr "0.10.2")]))))
       = Ok commands
    /\ (forall c,
           In c commands
           <-> exists name version,
                 Dict.get name current_packages = Some version
                 /\ c = pip_install "python"
                          (if String.eqb version "" then name
                           else name ++ "==" ++ version))
    /\ (forall name version,
           Dict.get name current_packages = Some version ->
           In (name ++ "==" ++ version)
              (Str.splitlines
                 ("flask==2.0.0" ++ lf ++ "six==1.16.0" ++ lf))).
Proof.
  apply (install_after_reconcile "python" (fun _ => Completed "")
           ("flask==2.0.0" ++ lf ++ "six==1.16.0" ++ lf)
           (manifest_with [("toml", TStr "0.10.2")])
           [("tool", TTable [("custom", TTable [("dependencies",
                       TTable [("toml", TStr "0.10.2")])])]);
            ("build-system", default_build_system)]
           [("toml", TStr "0.10.2")]).
  - reflexivity.
  - reflexivity.
  - repeat constructor. simpl. tauto.
  - reflexivity.
  - discriminate.
Defined.

(** ** The menu of [main] *)

Lemma lstrip_clean s : Text.starts_clean (Text.lstrip s) = true.
Proof.
  induction s as [|c s IH]; [reflexivity|]. cbn [Text.lstrip].
  destruct (Text.is_space c) eqn:E; [exact IH|]. cbn. now rewrite E.
Qed.

Lemma lstrip_of_clean s : Text.starts_clean s = true -> Text.lstrip s = s.
Proof.
  destruct s as [|c s]; [reflexivity|]. cbn.
  now destruct (Text.is_space c).
Qed.

Lemma rstrip_clean s :
  Text.starts_clean s = true -> Text.starts_clean (Text.rstrip s) = true.
Proof.
  destruct s as [|c s]; [reflexivity|]. cbn [Text.starts_clean Text.rstrip].
  intros H. destruct (Text.rstrip s); [|exact H].
  destruct (Text.is_space c) eqn:E; [discriminate|].
  cbn. now rewrite E.
Qed.

Lemma rstrip_idem s : Text.rstrip (Text.rstrip s) = Text.rstrip s.
Proof.
  induction s as [|c s IH]; [reflexivity|]. cbn [Text.rstrip].
  destruct (Text.rstrip s) as [|a r] eqn:E.
  - destruct (Text.is_space c) eqn:Ec; [reflexivity|].
    cbn. now rewrite Ec.
  - cbn [Text.rstrip]. cbn [Text.rstrip] in IH.
    destruct (Text.rstrip r); rewrite IH; reflexivity.
Qed.

Lemma strip_idem s : Text.strip (Text.strip s) = Text.strip s.
Proof.
  unfold Text.strip.
  rewrite (lstrip_of_clean (Text.rstrip (Text.lstrip s)))
    by apply rstrip_clean, lstrip_clean.
  apply rstrip_idem.
Qed.

(** X14: [main] reads the typed line up to the white space around it: the
    whole run, what is printed included, is the run on the stripped line. *)
Theorem main_strips_choice sys site_packages_dir executable spawn sched typed
    fs :
  main sys site_packages_dir executable spawn sched typed fs
  = main sys site_packages_dir executable spawn sched (Text.strip typed) fs.
Proof.
  unfold main. now rewrite strip_idem.
Qed.

Lemma main_run sys site_packages_dir executable spawn sched typed fs base :
  base_prefix sys = Some base ->
  main sys site_packages_dir executable spawn sched typed fs
  = if hasattr (real_prefix sys) || negb (String.eqb base (prefix sys))
    then
      let r :=
        (print "1. Monitor environment for changes" ;;
         print "2. Install dependencies from pyproject.toml" ;;
         print "Select an option (1 or 2): " ;;
         if String.eqb (Text.strip typed) "1" then
           debug "Starting the monitoring process..." ;;
           ts <- monitor_virtualenv sys site_packages_dir sched ;;
           ret (Monitored ts)
         else if String.eqb (Text.strip typed) "2" then
           commands <- install_dependencies_from_pyproject executable spawn ;;
           ret (Installed commands)
         else
           print "Invalid choice. Exiting." ;;
           ret Nothing) fs in
      mkRun (outcome r) (disk r)
        (("[DEBUG] sys.prefix: " ++ prefix sys)
         :: ("[DEBUG] sys.base_prefix: " ++ base) :: printed r)
    else
      mkRun (Raise (SystemExit 1)) fs
        ["[DEBUG] sys.prefix: " ++ prefix sys;
         "[DEBUG] sys.base_prefix: " ++ base;
         "Error: This script must be run inside a virtual environment."].
Proof.
  intros Hb. unfold main.
  unfold bind at 1. rewrite (is_virtual_env_run sys base fs Hb).
  cbn [outcome disk printed].
  now destruct (hasattr (real_prefix sys)
                || negb (String.eqb base (prefix sys))).
Qed.

(** X15: what [main] does when there is nothing to do.  Outside a virtual
    environment it exits with status 1 before the menu is printed, whatever
    is typed; inside one, a choice other than 1 and 2 prints the menu and
    the notice and returns.  In both cases the manifest is untouched and no
    reconciliation or command is started. *)
Theorem main_guards sys site_packages_dir executable spawn sched typed fs
    base :
  base_prefix sys = Some base ->
  (real_prefix sys = None /\ base = prefix sys ->
   main sys site_packages_dir executable spawn sched typed fs
   = mkRun (Raise (SystemExit 1)) fs
       ["[DEBUG] sys.prefix: " ++ prefix sys;
        "[DEBUG] sys.base_prefix: " ++ base;
        "Error: This script must be run inside a virtual environment."])
  /\ (real_prefix sys <> None \/ base <> prefix sys ->
      Text.strip typed <> "1" -> Text.strip typed <> "2" ->
      main sys site_packages_dir executable spawn sched typed fs
      = mkRun (Ok Nothing) fs
          ["[DEBUG] sys.prefix: " ++ prefix sys;
           "[DEBUG] sys.base_prefix: " ++ base;
           "1. Monitor environment for changes";
           "2. Install dependencies from pyproject.toml";
           "Select an option (1 or 2): ";
           "Invalid choice. Exiting."]).
Proof.
  intros Hb.
  rewrite (main_run sys site_packages_dir executable spawn sched typed fs base
             Hb).
  split.
  - intros [Hreal Heq]. rewrite Hreal. subst base.
    rewrite String.eqb_refl. reflexivity.
  - intros Hin H1 H2.
    assert (E : hasattr (real_prefix sys)
                || negb (String.eqb base (prefix sys)) = true).
    { destruct Hin as [H|H].
      - destruct (real_prefix sys); [reflexivity | congruence].
      - apply orb_true_iff. right. apply negb_true_iff.
        now apply String.eqb_neq. }
    rewrite E. apply String.eqb_neq in H1, H2.
    cbn zeta. unfold bind, print. cbn [outcome disk printed].
    rewrite H1, H2. reflexivity.
Qed.

Lemma main_guards_witness :
  main (mkSys None (Some "/usr") "/usr") "/usr/lib" "python"
    (fun _ => Completed "") [(Timer, Completed "")] " 2" (manifest_with [])
  = mkRun (Raise (SystemExit 1)) (manifest_with [])
      ["[DEBUG] sys.prefix: /usr"; "[DEBUG] sys.base_prefix: /usr";
       "Error: This script must be run inside a virtual environment."]
  /\ outcome (main (mkSys None (Some "/usr") "/home/u/venv")
                "/home/u/venv/lib" "python" (fun _ => Completed "")
                [(Timer, Completed "")] "3" (manifest_with []))
     = Ok Nothing.
Proof.
  split.
  - apply (proj1 (main_guards (mkSys None (Some "/usr") "/usr") "/usr/lib"
                    "python" (fun _ => Completed "") [(Timer, Completed "")]
                    " 2" (manifest_with []) "/usr" eq_refl)).
    split; reflexivity.
  - rewrite (proj2 (main_guards (mkSys None (Some "/usr") "/home/u/venv")
                      "/home/u/venv/lib" "python" (fun _ => Completed "")
                      [(Timer, Completed "")]
                      "3" (manifest_with []) "/usr" eq_refl)).
    + reflexivity.
    + right. discriminate.
    + discriminate.
    + discriminate.
Defined.

(** ** The installed copy *)

Example version_examples :
  Installed.get_installed_version
    (Completed ("Name: six" ++ lf ++ "Version: 1.16.0" ++ lf
                ++ "Summary: Python 2 and 3" ++ lf))
  = Installed.Version "1.16.0"
  /\ Installed.get_installed_version (Completed "")
     = Installed.NoVersion
  /\ Installed.get_installed_version
       (Completed ("Version: 1:2.0" ++ lf))
     = Installed.Version "1".
Proof. repeat split. Qed.

Lemma installed_update_effect package version fs :
  effect (Installed.update_pyproject package version fs)
  = match outcome (read_toml (initialized fs)) with
    | Raise e => (Raise e, initialized fs)
    | Ok d =>
        match locate_dependencies d with
        | Raise e => (Raise e, initialized fs)
        | Ok r =>
            effect (write_toml
                      (project_data_of r
                         (Dict.set package (TStr version) (dependencies r)))
                      (initialized fs))
        end
    end.
Proof.
  unfold Installed.update_pyproject.
  rewrite (bind_ok _ _ fs
             (match fs with Some _ => true | None => false end) fs)
    by reflexivity.
  rewrite (bind_ok _ _ fs tt (initialized fs)) by now destruct fs.
  pose proof (read_toml_effect (initialized fs)) as Hr.
  destruct (outcome (read_toml (initialized fs))) as [d|e];
    [|now apply bind_raise].
  rewrite (bind_ok _ _ _ _ _ Hr).
  destruct (locate_dependencies d) as [r|e];
    [|apply bind_raise; apply lift_effect].
  rewrite (bind_ok _ _ (initialized fs) r (initialized fs))
    by apply lift_effect.
  unfold effect, bind, print.
  destruct (outcome (write_toml _ (initialized fs))) as [[]|]; reflexivity.
Qed.

(** X16: the two copies of [update_pyproject] agree.  On every state of the
    manifest file, the copy under site-packages ends as the copy of the
    source tree ends, with the same exception if any, and leaves the same
    file; only the lines they print differ. *)
Theorem update_pyproject_copies_agree package version fs :
  effect (Installed.update_pyproject package version fs)
  = effect (update_pyproject package version fs).
Proof.
  now rewrite installed_update_effect, update_pyproject_effect.
Qed.

Lemma split_no_separator sep s :
  sep <> "" -> Str.contains sep s = false -> Str.split sep s = [s].
Proof.
  intros Hsep Hc.
  pose proof (contains_split sep s Hsep) as Hiff.
  pose proof (join_split sep s Hsep) as Hj.
  pose proof (split_from_nonempty sep s 0) as Hne.
  unfold Str.split in *.
  destruct (Str.split_from sep 0 s) as [|part [|part' rest]].
  - congruence.
  - cbn in Hj. now subst.
  - assert (H : Str.contains sep s = true) by (apply Hiff; cbn; lia).
    congruence.
Qed.

Lemma contains_cons sep c s :
  Str.contains sep s = true -> Str.contains sep (String c s) = true.
Proof. intros H. cbn [Str.contains]. rewrite H. apply orb_true_r. Qed.

Lemma version_field line :
  String.prefix "Version:" line = true ->
  exists field, nth_error (Str.split ":" line) 1 = Some field.
Proof.
  intros Hp.
  assert (Hc : Str.contains ":" line = true).
  { rewrite (prefix_drop "Version:" line Hp). cbn [String.append].
    do 7 apply contains_cons. cbn [Str.contains].
    destruct (Text.drop (String.length "Version:") line); reflexivity. }
  apply contains_split in Hc; [|discriminate].
  destruct (Str.split ":" line) as [|a [|b rest]]; cbn in Hc; try lia.
  now exists b.
Qed.

Lemma version_line_never_index_error lines :
  Installed.version_line lines <> Installed.IndexError.
Proof.
  induction lines as [|line rest IH]; cbn [Installed.version_line].
  - discriminate.
  - destruct (String.prefix "Version:" line) eqn:Hp; [|exact IH].
    destruct (version_field line Hp) as (field & ->). discriminate.
Qed.

Lemma version_line_none lines :
  Installed.version_line lines = Installed.NoVersion
  <-> forall line, In line lines -> String.prefix "Version:" line = false.
Proof.
  induction lines as [|line rest IH]; cbn [Installed.version_line].
  - split; [intros _ l [] | reflexivity].
  - destruct (String.prefix "Version:" line) eqn:Hp.
    + destruct (version_field line Hp) as (field & ->). split.
      * discriminate.
      * intros H. specialize (H line (or_introl eq_refl)). congruence.
    + rewrite IH. split.
      * intros H l [<-|Hin]; [exact Hp | now apply H].
      * intros H l Hin. apply H. now right.
Qed.

Lemma version_line_skips before : forall rest,
  (forall line, In line before -> String.prefix "Version:" line = false) ->
  Installed.version_line (before ++ rest) = Installed.version_line rest.
Proof.
  induction before as [|line before IH]; intros rest H; [reflexivity|].
  cbn [app Installed.version_line]. rewrite (H line) by now left.
  apply IH. intros l Hin. apply H. now right.
Qed.

(** X17: [get_installed_version] on the output of [pip show].  The index
    [1] after [split(":")] is always in range, so the function never raises
    IndexError; it returns [None] exactly when no line begins with
    "Version:"; and for a first such line "Version: v" with no colon in [v]
    it returns [v] without the white space around it. *)
Theorem get_installed_version_reads_version_line :
  (forall show,
      Installed.get_installed_version show <> Installed.IndexError)
  /\ (forall stdout,
         Installed.get_installed_version (Completed stdout)
         = Installed.NoVersion
         <-> forall line, In line (Str.splitlines stdout) ->
                          String.prefix "Version:" line = false)
  /\ (forall before v after,
         (forall line, In line before ->
                       String.prefix "Version:" line = false) ->
         Str.contains ":" v = false ->
         Installed.version_line (before ++ ("Version: " ++ v) :: after)
         = Installed.Version (Text.strip v)).
Proof.
  split; [|split].
  - intros [stdout|]; cbn [Installed.get_installed_version];
      [apply version_line_never_index_error | discriminate].
  - intros stdout. apply version_line_none.
  - intros before v after Hb Hv.
    rewrite version_line_skips by assumption.
    cbn [Installed.version_line].
    replace (String.prefix "Version:" ("Version: " ++ v)) with true
      by reflexivity.
    assert (Hs : Str.split ":" ("Version: " ++ v) = ["Version"; " " ++ v]).
    { pose proof (split_no_separator ":" v ltac:(discriminate) Hv) as H.
      unfold Str.split in *. cbn. rewrite H. reflexivity. }
    rewrite Hs. reflexivity.
Qed.

Lemma get_installed_version_reads_version_line_witness :
  Installed.version_line
    (["Name: six"] ++ ("Version: " ++ "1.16.0 ") :: ["Summary: Python 2 and 3"])
  = Installed.Version "1.16.0".
Proof.
  apply (proj2 (proj2 get_installed_version_reads_version_line)
           ["Name: six"] "1.16.0 " ["Summary: Python 2 and 3"]).
  - intros line [<-|[]]. reflexivity.
  - reflexivity.
Defined.

Lemma installed_install_each_effect executable spawn items : forall fs,
  effect (Installed.install_each executable spawn items fs)
  = (spawn_all spawn (map (install_command executable) items), fs).
Proof.
  induction items as [|[package version] rest IH]; intros fs.
  - reflexivity.
  - cbn [Installed.install_each map spawn_all]. rewrite bind_print.
    unfold install_command at 1. cbn [fst snd]. unfold subprocess_run.
    destruct (spawn (pip_install executable (pkg_str package version))).
    + rewrite (bind_ok _ _ fs tt fs) by reflexivity.
      specialize (IH fs).
      destruct (spawn_all spawn (map (install_command executable) rest)).
      * rewrite (bind_ok _ _ _ _ _ IH). reflexivity.
      * now apply bind_raise.
    + now apply bind_raise.
Qed.

Lemma installed_install_effect executable spawn f :
  effect (Installed.install_dependencies_from_pyproject executable spawn
            (Some f))
  = (install_commands executable spawn (Some f), Some f).
Proof.
  unfold Installed.install_dependencies_from_pyproject, install_commands.
  rewrite (bind_ok _ _ _ true (Some f)) by reflexivity. cbn [negb].
  pose proof (read_toml_effect (Some f)) as Hr.
  destruct (outcome (read_toml (Some f))) as [d|e]; [|now apply bind_raise].
  rewrite (bind_ok _ _ _ _ _ Hr).
  destruct (get_or_empty "tool" (TTable d)) as [tv|e];
    [|apply bind_raise; apply lift_effect].
  rewrite (bind_ok _ _ (Some f) tv (Some f)) by apply lift_effect.
  destruct (get_or_empty "custom" tv) as [cv|e];
    [|apply bind_raise; apply lift_effect].
  rewrite (bind_ok _ _ (Some f) cv (Some f)) by apply lift_effect.
  destruct (get_or_empty "dependencies" cv) as [dv|e];
    [|apply bind_raise; apply lift_effect].
  rewrite (bind_ok _ _ (Some f) dv (Some f)) by apply lift_effect.
  destruct (truthy dv); cbn [negb]; [|reflexivity].
  rewrite bind_print.
  destruct (as_table dv) as [items|e];
    [|apply bind_raise; apply lift_effect].
  rewrite (bind_ok _ _ (Some f) items (Some f)) by apply lift_effect.
  apply installed_install_each_effect.
Qed.

(** X18: the two copies of [install_dependencies_from_pyproject] differ
    only when the manifest file is missing.  With a manifest file, whatever
    it holds and whatever becomes of the commands, both end the same way and
    run the same commands, and neither writes the file; with no manifest
    file the copy under site-packages exits with status 1 where the copy of
    the source tree returns. *)
Theorem install_copies_agree_on_a_manifest executable spawn :
  (forall f,
      effect (Installed.install_dependencies_from_pyproject executable spawn
                (Some f))
      = effect (install_dependencies_from_pyproject executable spawn
                  (Some f)))
  /\ Installed.install_dependencies_from_pyproject executable spawn None
     = mkRun (Raise (SystemExit 1)) None ["Error: pyproject.toml not found."]
  /\ outcome (install_dependencies_from_pyproject executable spawn None)
     = Ok [].
Proof.
  split; [|split; reflexivity].
  intros f.
  now rewrite installed_install_effect, install_dependencies_effect.
Qed.

(** ** The installation log *)

Lemma track_installations_effect name version now fs :
  Log.outcome (Log.track_installations name version now fs)
  = match fs with
    | None => Log.Returned tt
    | Some f =>
        if Log.readable f then
          match Log.body f with
          | Log.Garbage _ => Log.Raised Log.JSONDecodeError
          | Log.Data value =>
              match Log.subscript value "installations" with
              | Log.Raised e => Log.Raised e
              | Log.Returned v =>
                  match Log.as_list v with
                  | Log.Raised e => Log.Raised e
                  | Log.Returned _ =>
                      if Log.writable f then Log.Returned tt
                      else Log.Raised Log.PermissionError
                  end
              end
          end
        else Log.Raised Log.PermissionError
    end
  /\ Log.disk (Log.track_installations name version now fs)
     = match fs with
       | None =>
           Some (Log.mkFile
                   (Log.Data
                      (Log.JObject
                         [("installations",
                           Log.JArray [Log.log_entry name version now])]))
                   true true)
       | Some f =>
           match Log.body f with
           | Log.Data value =>
               match Log.subscript value "installations" with
               | Log.Returned v =>
                   match Log.as_list v with
                   | Log.Returned items =>
                       if Log.readable f && Log.writable f then
                         Some (Log.mkFile
                                 (Log.Data
                                    (Log.appended value items
                                       (Log.log_entry name version now)))
                                 true true)
                       else fs
                   | Log.Raised _ => fs
                   end
               | Log.Raised _ => fs
               end
           | Log.Garbage _ => fs
           end
       end.
Proof.
  destruct fs as [f|]; [|split; reflexivity].
  unfold Log.track_installations, Log.load_log, Log.save_log, Log.bind,
    Log.debug, Log.read_json, Log.ret.
  cbn [Log.outcome Log.disk Log.printed].
  destruct (Log.readable f) eqn:Hr;
    [|cbn; destruct (Log.body f) as [value|];
      [destruct (Log.subscript value "installations") as [v|];
       [destruct (Log.as_list v)|]|]; split; reflexivity].
  destruct (Log.body f) as [value|raw]; cbn; [|split; reflexivity].
  destruct (Log.subscript value "installations") as [v|e]; cbn;
    [|split; reflexivity].
  destruct (Log.as_list v) as [items|e]; cbn; [|split; reflexivity].
  destruct (Log.writable f); cbn; rewrite ?Hr; split; reflexivity.
Qed.



(** X20: a failing [track_installations] leaves the log as it was.  The
    call raises when the log cannot be read, parsed or written, when the
    log is not an object (TypeError), has no "installations" member
    (KeyError) or holds something other than a list there (AttributeError);
    in each case nothing is written. *)
Theorem track_installations_failure name version now fs e :
  Log.outcome (Log.track_installations name version now fs) = Log.Raised e ->
  Log.disk (Log.track_installations name version now fs) = fs
  /\ (e = Log.PermissionError \/ e = Log.JSONDecodeError
      \/ e = Log.TypeError \/ e = Log.KeyError "installations"
      \/ e = Log.AttributeError).
Proof.
  destruct (track_installations_effect name version now fs) as [Ho Hd].
  rewrite Ho, Hd. clear Ho Hd.
  destruct fs as [f|]; [|discriminate].
  destruct (Log.readable f).
  - destruct (Log.body f) as [value|raw].
    + destruct (Log.subscript value "installations") as [v|e0] eqn:Hs.
      * destruct (Log.as_list v) as [items|e1] eqn:Hl.
        -- destruct (Log.writable f); [discriminate|].
           intros H. inversion H. auto.
        -- intros H. inversion H; subst. split; [reflexivity|].
           destruct v; cbn in Hl; inversion Hl; auto 6.
      * intros H. inversion H; subst. split; [reflexivity|].
        destruct value; cbn in Hs; try (inversion Hs; auto 6).
        destruct (Dict.get "installations" members); inversion Hs. auto 6.
    + intros H. inversion H. auto.
  - intros H. inversion H. split; [|auto].
    destruct (Log.body f) as [value|raw]; [|reflexivity].
    destruct (Log.subscript value "installations") as [v|]; [|reflexivity].
    destruct (Log.as_list v); reflexivity.
Qed.

Lemma track_installations_failure_witness :
  Log.outcome
    (Log.track_installations "six" "1.16.0" "2024-05-01T10:00:00"
       (Some (Log.mkFile (Log.Data (Log.JObject [])) true true)))
  = Log.Raised (Log.KeyError "installations")
  /\ Log.disk
       (Log.track_installations "six" "1.16.0" "2024-05-01T10:00:00"
          (Some (Log.mkFile (Log.Data (Log.JObject [])) true true)))
     = Some (Log.mkFile (Log.Data (Log.JObject [])) true true).
Proof.
  split; [reflexivity|].
  exact (proj1 (track_installations_failure "six" "1.16.0"
                  "2024-05-01T10:00:00"
                  (Some (Log.mkFile (Log.Data (Log.JObject [])) true true))
                  (Log.KeyError "installations") eq_refl)).
Defined.



(** ** Repeated triggers *)




